(** * Finishing-materials calculator

    A shallow embedding of [package/models.py] and [package/calculations.py]:
    the material classes, the calculation result, the material calculator
    with its history and optional database manager, and the room calculator.

    Numbers.  Python numbers are embedded as exact rationals [Q]: [float(v)]
    is the identity, [int(v)] truncates toward zero, [math.ceil] is
    [Qceiling], and [round(x, n)] rounds half to even at [n] decimal digits.
    Binary floating-point rounding is outside this embedding: it carries
    the statements about what is checked, stored, recorded and printed.
    The module [Binary64] embeds the numeric expressions a second time, on
    binary64 floats with every operation rounded to the nearest float, and
    carries the statements about the numbers returned.

    Exceptions.  A raising function returns [Raise e]; a stateful one
    returns the state reached when the exception left it. *)

From Stdlib Require Import ZArith QArith Qround Qpower String List Bool.
From Stdlib Require Import Floats.SpecFloat.
From Stdlib Require Import Lia Lqa Sorted Permutation.
Import ListNotations.

Set Implicit Arguments.
Local Open Scope Q_scope.

(* ================================================================= *)
(** ** Python runtime fragments *)

(** The place a [ValueError] or [TypeError] is raised from; it stands for
    the message text of the source. *)
Inductive why : Set :=
  | PriceNotPositive          (* Material.price_per_unit setter *)
  | CoverageNotPositive       (* Material.unit_coverage setter *)
  | RollWidthNotPositive | RollWidthTooLarge
  | RollLengthNotPositive | RollLengthTooLarge
  | TilesNotPositive | TilesTooMany
  | TileWidthNotPositive | TileWidthTooLarge
  | TileHeightNotPositive | TileHeightTooLarge
  | PlanksNotPositive | PlanksTooMany
  | PlankWidthNotPositive | PlankWidthTooLarge
  | PlankLengthNotPositive | PlankLengthTooLarge
  | ResultAreaNotPositive     (* CalculationResult.area setter *)
  | ResultUnitsNotPositive    (* CalculationResult.units_needed setter *)
  | ResultCostNegative        (* CalculationResult.total_cost setter *)
  | ResultReserveOutOfRange   (* CalculationResult.reserve_percent setter *)
  | ReserveOutOfRange         (* MaterialCalculator.reserve_percent setter *)
  | MinAreaNegative | MinAreaAboveMax | MaxAreaBelowMin
  | PrecisionInvalid | CurrencyNotString | AutoSaveNotBool
  | AreaBelowMin | AreaAboveMax | NotAMaterial
  | EmptyMaterials
  | RoomSizeNotPositive | WallSizeNotPositive | OpeningNegative
  | WallAreaNotPositive | HeightMissing | SurfaceTypeInvalid
  | NdigitsNotInteger.        (* round(x, ndigits) on a non-integer ndigits *)

(** Exceptions; every one of them is a subclass of Python's [Exception]. *)
Inductive exn : Type :=
  | ValueError (w : why)
  | TypeError (w : why)
  | ZeroDivisionError
  | DatabaseError (msg : string).

Inductive res (A : Type) : Type :=
  | Ok (a : A)
  | Raise (e : exn).
Arguments Raise {A} e.

Definition res_bind {A B} (c : res A) (k : A -> res B) : res B :=
  match c with
  | Ok a => k a
  | Raise e => Raise e
  end.

Declare Scope res_scope.
Delimit Scope res_scope with res.
Notation "x <- c ;; k" := (res_bind c (fun x => k))
  (at level 61, c at next level, right associativity) : res_scope.

(** Dynamically typed values, for the attributes the source checks with
    [isinstance]. *)
Inductive pyval : Type :=
  | VNone
  | VBool (b : bool)
  | VInt (z : Z)
  | VFloat (q : Q)
  | VStr (s : string).

(** [bool(v)], the truth value used by [if v:]. *)
Definition truthy (v : pyval) : bool :=
  match v with
  | VNone => false
  | VBool b => b
  | VInt z => negb (z =? 0)%Z
  | VFloat q => negb (Qeq_bool q 0)
  | VStr s => negb (String.eqb s EmptyString)
  end.

(** The number a value stands for in a comparison, if it is one. *)
Definition number_of (v : pyval) : option Q :=
  match v with
  | VBool b => Some (if b then 1 else 0)
  | VInt z => Some (inject_Z z)
  | VFloat q => Some q
  | VNone | VStr _ => None
  end.

(** [a == b] on values: numbers compare by value across [bool], [int] and
    [float]; strings compare with strings; [None] equals [None] only. *)
Definition py_eq (a b : pyval) : bool :=
  match a, b with
  | VNone, VNone => true
  | VStr s, VStr t => String.eqb s t
  | _, _ =>
      match number_of a, number_of b with
      | Some x, Some y => Qeq_bool x y
      | _, _ => false
      end
  end.

(** [isinstance(v, int)]; [bool] is a subclass of [int]. *)
Definition isinstance_int (v : pyval) : option Z :=
  match v with
  | VInt z => Some z
  | VBool b => Some (if b then 1 else 0)%Z
  | _ => None
  end.

Definition isinstance_str (v : pyval) : bool :=
  match v with VStr _ => true | _ => false end.


(** [x < y] and [x <= y] on numbers. *)
Definition lt (x y : Q) : bool := negb (Qle_bool y x).
Definition le (x y : Q) : bool := Qle_bool x y.

(** [int(x)]: truncation toward zero. *)
Definition py_int (x : Q) : Z :=
  if Qle_bool 0 x then Qfloor x else Qceiling x.

(** [math.ceil(x)]. *)
Definition ceil (x : Q) : Z := Qceiling x.

(** [x / y] on floats: division by zero raises. *)
Definition truediv (x y : Q) : res Q :=
  if Qeq_bool y 0 then Raise ZeroDivisionError else Ok (x / y).

(** Rounding to the nearest integer, ties to the even one. *)
Definition round_half_even (x : Q) : Z :=
  let f := Qfloor x in
  match Qcompare (x - inject_Z f) (1 # 2) with
  | Lt => f
  | Gt => (f + 1)%Z
  | Eq => if Z.even f then f else (f + 1)%Z
  end.

(** [round(x, n)] for an integer [n] (negative [n] rounds to tens,
    hundreds, ...). *)
Definition round_ndigits (x : Q) (n : Z) : Q :=
  inject_Z (round_half_even (x * 10 ^ n)) / 10 ^ n.

(** [round(x, ndigits)]: [ndigits] must be an integer or [None]. *)
Definition round (x : Q) (ndigits : pyval) : res Q :=
  match ndigits with
  | VNone => Ok (inject_Z (round_half_even x))
  | VInt n => Ok (round_ndigits x n)
  | VBool b => Ok (round_ndigits x (if b then 1 else 0))
  | VFloat _ | VStr _ => Raise (TypeError NdigitsNotInteger)
  end.


(** [list.sort(key=key)] on numeric keys: a stable ascending sort that
    compares keys with [<] only. *)
Section ListSort.
Variable A : Type.
Variable key : A -> Q.

Fixpoint insert (x : A) (l : list A) : list A :=
  match l with
  | [] => [x]
  | h :: t => if lt (key h) (key x) then h :: insert x t else x :: h :: t
  end.

Definition sort (l : list A) : list A := fold_right insert [] l.

End ListSort.

(* ================================================================= *)
(** ** models.py *)

(** *** class Material (abstract base) *)
Module Material.

Record t : Type := {
  name : string;
  _price_per_unit : Q;
  _unit_coverage : Q
}.

(** The [price_per_unit] setter. *)
Definition set_price_per_unit (self : t) (value : Q) : res t :=
  if le value 0 then Raise (ValueError PriceNotPositive)
  else Ok {| name := name self;
             _price_per_unit := value;
             _unit_coverage := _unit_coverage self |}.

(** The [unit_coverage] setter. *)
Definition set_unit_coverage (self : t) (value : Q) : res t :=
  if le value 0 then Raise (ValueError CoverageNotPositive)
  else Ok {| name := name self;
             _price_per_unit := _price_per_unit self;
             _unit_coverage := value |}.

(** [Material.__init__]: both numeric attributes go through their
    setters, the price first. *)
Definition init (name0 : string) (price_per_unit unit_coverage : Q) : res t :=
  (let self := {| name := name0; _price_per_unit := 0; _unit_coverage := 0 |} in
   self <- set_price_per_unit self price_per_unit ;;
   set_unit_coverage self unit_coverage)%res.

Definition calculate_cost_per_sqm (self : t) : res Q :=
  truediv (_price_per_unit self) (_unit_coverage self).

End Material.

(** *** class Wallpaper(Material) *)
Module Wallpaper.

Record t : Type := {
  base : Material.t;
  _roll_width : Q;
  _roll_length : Q
}.

Definition check_roll_width (value : Q) : res Q :=
  if le value 0 then Raise (ValueError RollWidthNotPositive)
  else if lt 5 value then Raise (ValueError RollWidthTooLarge)
  else Ok value.

Definition check_roll_length (value : Q) : res Q :=
  if le value 0 then Raise (ValueError RollLengthNotPositive)
  else if lt 50 value then Raise (ValueError RollLengthTooLarge)
  else Ok value.

(** The [roll_width] setter: validates and stores; nothing else is
    assigned. *)
Definition set_roll_width (self : t) (value : Q) : res t :=
  (v <- check_roll_width value ;;
   Ok {| base := base self; _roll_width := v;
         _roll_length := _roll_length self |})%res.

Definition set_roll_length (self : t) (value : Q) : res t :=
  (v <- check_roll_length value ;;
   Ok {| base := base self; _roll_width := _roll_width self;
         _roll_length := v |})%res.

Definition init (name : string) (price_per_roll roll_width roll_length : Q)
  : res t :=
  (w <- check_roll_width roll_width ;;
   l <- check_roll_length roll_length ;;
   let coverage := w * l in
   b <- Material.init name price_per_roll coverage ;;
   Ok {| base := b; _roll_width := w; _roll_length := l |})%res.

(** Default roll: 0.53 m by 10.05 m. *)
Definition init_default (name : string) (price_per_roll : Q) : res t :=
  init name price_per_roll 0.53 10.05.

End Wallpaper.

(** *** class Tile(Material) *)
Module Tile.

Record t : Type := {
  base : Material.t;
  _tiles_per_box : Z;
  _tile_width : Q;
  _tile_height : Q
}.

Definition check_tiles_per_box (value : Q) : res Z :=
  if le value 0 then Raise (ValueError TilesNotPositive)
  else if lt 1000 value then Raise (ValueError TilesTooMany)
  else Ok (py_int value).

Definition check_tile_width (value : Q) : res Q :=
  if le value 0 then Raise (ValueError TileWidthNotPositive)
  else if lt 2 value then Raise (ValueError TileWidthTooLarge)
  else Ok value.

Definition check_tile_height (value : Q) : res Q :=
  if le value 0 then Raise (ValueError TileHeightNotPositive)
  else if lt 2 value then Raise (ValueError TileHeightTooLarge)
  else Ok value.

Definition set_tiles_per_box (self : t) (value : Q) : res t :=
  (n <- check_tiles_per_box value ;;
   Ok {| base := base self; _tiles_per_box := n;
         _tile_width := _tile_width self;
         _tile_height := _tile_height self |})%res.

Definition set_tile_width (self : t) (value : Q) : res t :=
  (v <- check_tile_width value ;;
   Ok {| base := base self; _tiles_per_box := _tiles_per_box self;
         _tile_width := v; _tile_height := _tile_height self |})%res.

Definition set_tile_height (self : t) (value : Q) : res t :=
  (v <- check_tile_height value ;;
   Ok {| base := base self; _tiles_per_box := _tiles_per_box self;
         _tile_width := _tile_width self; _tile_height := v |})%res.

Definition init (name : string) (price_per_box tiles_per_box
                                   tile_width tile_height : Q) : res t :=
  (n <- check_tiles_per_box tiles_per_box ;;
   w <- check_tile_width tile_width ;;
   h <- check_tile_height tile_height ;;
   let tile_area := w * h in
   let coverage := tile_area * inject_Z n in
   b <- Material.init name price_per_box coverage ;;
   Ok {| base := b; _tiles_per_box := n;
         _tile_width := w; _tile_height := h |})%res.

End Tile.

(** *** class Laminate(Material) *)
Module Laminate.

Record t : Type := {
  base : Material.t;
  _planks_per_pack : Z;
  _plank_width : Q;
  _plank_length : Q
}.

Definition check_planks_per_pack (value : Q) : res Z :=
  if le value 0 then Raise (ValueError PlanksNotPositive)
  else if lt 100 value then Raise (ValueError PlanksTooMany)
  else Ok (py_int value).

Definition check_plank_width (value : Q) : res Q :=
  if le value 0 then Raise (ValueError PlankWidthNotPositive)
  else if lt 1 value then Raise (ValueError PlankWidthTooLarge)
  else Ok value.

Definition check_plank_length (value : Q) : res Q :=
  if le value 0 then Raise (ValueError PlankLengthNotPositive)
  else if lt 3 value then Raise (ValueError PlankLengthTooLarge)
  else Ok value.

Definition set_planks_per_pack (self : t) (value : Q) : res t :=
  (n <- check_planks_per_pack value ;;
   Ok {| base := base self; _planks_per_pack := n;
         _plank_width := _plank_width self;
         _plank_length := _plank_length self |})%res.

Definition set_plank_width (self : t) (value : Q) : res t :=
  (v <- check_plank_width value ;;
   Ok {| base := base self; _planks_per_pack := _planks_per_pack self;
         _plank_width := v; _plank_length := _plank_length self |})%res.

Definition set_plank_length (self : t) (value : Q) : res t :=
  (v <- check_plank_length value ;;
   Ok {| base := base self; _planks_per_pack := _planks_per_pack self;
         _plank_width := _plank_width self; _plank_length := v |})%res.

Definition init (name : string) (price_per_pack planks_per_pack
                                   plank_width plank_length : Q) : res t :=
  (n <- check_planks_per_pack planks_per_pack ;;
   w <- check_plank_width plank_width ;;
   l <- check_plank_length plank_length ;;
   let plank_area := w * l in
   let coverage := plank_area * inject_Z n in
   b <- Material.init name price_per_pack coverage ;;
   Ok {| base := b; _planks_per_pack := n;
         _plank_width := w; _plank_length := l |})%res.

End Laminate.

(** *** Material instances *)

(** An instance of one of the three concrete subclasses. *)
Inductive material_t : Type :=
  | IsWallpaper (w : Wallpaper.t)
  | IsTile (t : Tile.t)
  | IsLaminate (l : Laminate.t).

(** An argument passed where a material is expected: [isinstance(o,
    Material)] holds exactly for [Instance]. *)
Inductive object : Type :=
  | Instance (m : material_t)
  | NotMaterial (v : pyval).

Definition base_of (m : material_t) : Material.t :=
  match m with
  | IsWallpaper w => Wallpaper.base w
  | IsTile t => Tile.base t
  | IsLaminate l => Laminate.base l
  end.

Definition name (m : material_t) : string := Material.name (base_of m).
Definition price_per_unit (m : material_t) : Q :=
  Material._price_per_unit (base_of m).
Definition unit_coverage (m : material_t) : Q :=
  Material._unit_coverage (base_of m).

(** The coverage formula of each variant, applied to the geometry the
    instance holds now. *)
Definition coverage_formula (m : material_t) : Q :=
  match m with
  | IsWallpaper w => Wallpaper._roll_width w * Wallpaper._roll_length w
  | IsTile t =>
      Tile._tile_width t * Tile._tile_height t * inject_Z (Tile._tiles_per_box t)
  | IsLaminate l =>
      Laminate._plank_width l * Laminate._plank_length l
      * inject_Z (Laminate._planks_per_pack l)
  end.


(** [Material.__eq__]. *)
Definition __eq__ (self : material_t) (other : object) : bool :=
  match other with
  | NotMaterial _ => false
  | Instance o =>
      String.eqb (name self) (name o)
      && Qeq_bool (price_per_unit self) (price_per_unit o)
      && Qeq_bool (unit_coverage self) (unit_coverage o)
  end.

(** [Material.__lt__]: by cost per square metre; [None] stands for
    [NotImplemented]. *)
Definition __lt__ (self : material_t) (other : object) : res (option bool) :=
  match other with
  | NotMaterial _ => Ok None
  | Instance o =>
      (a <- Material.calculate_cost_per_sqm (base_of self) ;;
       b <- Material.calculate_cost_per_sqm (base_of o) ;;
       Ok (Some (lt a b)))%res
  end.

(** [Material.__hash__]: the hash of the tuple (name, price, coverage).
    Python's [hash] is left abstract: a hash of strings, a hash of numbers
    and the combination of the element hashes of a tuple.  The hash of a
    number depends on its value only, so it is taken on the reduced
    fraction. *)
Section Hash.
Variable hash_str : string -> Z.
Variable hash_float : Q -> Z.
Variable hash_tuple : list Z -> Z.

Definition hash_number (x : Q) : Z := hash_float (Qred x).

Definition __hash__ (self : material_t) : Z :=
  hash_tuple [hash_str (name self);
              hash_number (price_per_unit self);
              hash_number (unit_coverage self)].
End Hash.

(** The properties through which the geometry of an instance is
    assigned. *)
Inductive geometric_attribute : Set :=
  | roll_width | roll_length
  | tiles_per_box | tile_width | tile_height
  | planks_per_pack | plank_width | plank_length.

(** [m.attr = value] for a geometric property [attr] of the class of
    [m]; [None] when the class of [m] has no such property. *)
Definition assign (m : material_t) (attr : geometric_attribute) (value : Q)
  : option (res material_t) :=
  match m, attr with
  | IsWallpaper w, roll_width =>
      Some (w' <- Wallpaper.set_roll_width w value ;; Ok (IsWallpaper w'))%res
  | IsWallpaper w, roll_length =>
      Some (w' <- Wallpaper.set_roll_length w value ;; Ok (IsWallpaper w'))%res
  | IsTile t, tiles_per_box =>
      Some (t' <- Tile.set_tiles_per_box t value ;; Ok (IsTile t'))%res
  | IsTile t, tile_width =>
      Some (t' <- Tile.set_tile_width t value ;; Ok (IsTile t'))%res
  | IsTile t, tile_height =>
      Some (t' <- Tile.set_tile_height t value ;; Ok (IsTile t'))%res
  | IsLaminate l, planks_per_pack =>
      Some (l' <- Laminate.set_planks_per_pack l value ;; Ok (IsLaminate l'))%res
  | IsLaminate l, plank_width =>
      Some (l' <- Laminate.set_plank_width l value ;; Ok (IsLaminate l'))%res
  | IsLaminate l, plank_length =>
      Some (l' <- Laminate.set_plank_length l value ;; Ok (IsLaminate l'))%res
  | _, _ => None
  end.

(** The geometry an instance holds, attribute by attribute. *)
Definition geometry (m : material_t) (attr : geometric_attribute)
  : option Q :=
  match m, attr with
  | IsWallpaper w, roll_width => Some (Wallpaper._roll_width w)
  | IsWallpaper w, roll_length => Some (Wallpaper._roll_length w)
  | IsTile t, tiles_per_box => Some (inject_Z (Tile._tiles_per_box t))
  | IsTile t, tile_width => Some (Tile._tile_width t)
  | IsTile t, tile_height => Some (Tile._tile_height t)
  | IsLaminate l, planks_per_pack =>
      Some (inject_Z (Laminate._planks_per_pack l))
  | IsLaminate l, plank_width => Some (Laminate._plank_width l)
  | IsLaminate l, plank_length => Some (Laminate._plank_length l)
  | _, _ => None
  end.

(** What a setter stores for [value]: the counts go through [int], the
    lengths through [float]. *)
Definition stored (attr : geometric_attribute) (value : Q) : Q :=
  match attr with
  | tiles_per_box | planks_per_pack => inject_Z (py_int value)
  | _ => value
  end.




(** [m.calculate_cost_per_sqm()]. *)
Definition calculate_cost_per_sqm (m : material_t) : res Q :=
  Material.calculate_cost_per_sqm (base_of m).



(** *** class CalculationResult *)
Module CalculationResult.

Record t : Type := {
  material : material_t;
  _area : Q;
  _units_needed : Z;
  _total_cost : Q;
  _reserve_percent : Q
}.

Definition check_area (value : Q) : res Q :=
  if le value 0 then Raise (ValueError ResultAreaNotPositive) else Ok value.

Definition check_units_needed (value : Q) : res Z :=
  if le value 0 then Raise (ValueError ResultUnitsNotPositive)
  else Ok (py_int value).

Definition check_total_cost (value : Q) : res Q :=
  if lt value 0 then Raise (ValueError ResultCostNegative) else Ok value.

Definition check_reserve_percent (value : Q) : res Q :=
  if lt value 0 || lt 100 value
  then Raise (ValueError ResultReserveOutOfRange) else Ok value.

(** [CalculationResult.__init__]: the four numeric attributes go through
    their setters in this order. *)
Definition init (m : material_t) (area units_needed total_cost
                                  reserve_percent : Q) : res t :=
  (a <- check_area area ;;
   u <- check_units_needed units_needed ;;
   c <- check_total_cost total_cost ;;
   r <- check_reserve_percent reserve_percent ;;
   Ok {| material := m; _area := a; _units_needed := u;
         _total_cost := c; _reserve_percent := r |})%res.

Definition eq (self other : t) : bool :=
  __eq__ (material self) (Instance (material other))
  && Qeq_bool (_area self) (_area other)
  && (_units_needed self =? _units_needed other)%Z.

Definition ltb (self other : t) : bool :=
  lt (_total_cost self) (_total_cost other).

(** What the four setters let through. *)
Definition valid (r : t) : Prop :=
  0 < _area r /\ (0 <= _units_needed r)%Z /\ 0 <= _total_cost r /\
  0 <= _reserve_percent r /\ _reserve_percent r <= 100.

End CalculationResult.

(* ================================================================= *)
(** ** calculations.py *)

(** The persistence collaborator, seen from the calculator: an object
    with a [save_calculation(result, calculation_type)] method that acts
    on an external store and returns the new row id or raises. *)
Record DatabaseManager (Store : Type) : Type := {
  save_calculation : CalculationResult.t -> string -> Store -> res Z * Store
}.

(** What the calculator prints. *)
Inductive line : Type :=
  | SaveWarning (e : exn).

(** *** class MaterialCalculator *)
Module MaterialCalculator.
Section WithStore.
Variable Store : Type.

Record t : Type := {
  _reserve_percent : Q;
  _min_area : Q;
  _max_area : Q;
  _precision : pyval;
  _currency : pyval;
  _auto_save : pyval;
  _calculations_history : list CalculationResult.t;
  _db_manager : option (DatabaseManager Store)
}.

(** [MaterialCalculator.__init__]: every argument is stored in its
    private attribute as it is; the history starts empty. *)
Definition init (reserve_percent min_area max_area : Q)
  (precision currency auto_save : pyval)
  (db_manager : option (DatabaseManager Store)) : t :=
  {| _reserve_percent := reserve_percent;
     _min_area := min_area;
     _max_area := max_area;
     _precision := precision;
     _currency := currency;
     _auto_save := auto_save;
     _calculations_history := [];
     _db_manager := db_manager |}.

(** The defaults of the signature: 10 %, 0.1 to 10000 square metres, two
    digits, the rouble sign, auto-save on, no database manager. *)
Definition init_default : t :=
  init 10 0.1 10000 (VInt 2) (VStr "₽") (VBool true) None.

Definition set_reserve_percent (self : t) (value : Q) : res t :=
  if lt value 0 || lt 100 value then Raise (ValueError ReserveOutOfRange)
  else Ok {| _reserve_percent := value;
             _min_area := _min_area self;
             _max_area := _max_area self;
             _precision := _precision self;
             _currency := _currency self;
             _auto_save := _auto_save self;
             _calculations_history := _calculations_history self;
             _db_manager := _db_manager self |}.

Definition set_min_area (self : t) (value : Q) : res t :=
  if lt value 0 then Raise (ValueError MinAreaNegative)
  else if lt (_max_area self) value then Raise (ValueError MinAreaAboveMax)
  else Ok {| _reserve_percent := _reserve_percent self;
             _min_area := value;
             _max_area := _max_area self;
             _precision := _precision self;
             _currency := _currency self;
             _auto_save := _auto_save self;
             _calculations_history := _calculations_history self;
             _db_manager := _db_manager self |}.


Definition set_precision (self : t) (value : pyval) : res t :=
  match isinstance_int value with
  | None => Raise (ValueError PrecisionInvalid)
  | Some n =>
      if (n <? 0)%Z || (10 <? n)%Z then Raise (ValueError PrecisionInvalid)
      else Ok {| _reserve_percent := _reserve_percent self;
                 _min_area := _min_area self;
                 _max_area := _max_area self;
                 _precision := value;
                 _currency := _currency self;
                 _auto_save := _auto_save self;
                 _calculations_history := _calculations_history self;
                 _db_manager := _db_manager self |}
  end.

Definition set_currency (self : t) (value : pyval) : res t :=
  if negb (isinstance_str value) then Raise (ValueError CurrencyNotString)
  else Ok {| _reserve_percent := _reserve_percent self;
             _min_area := _min_area self;
             _max_area := _max_area self;
             _precision := _precision self;
             _currency := value;
             _auto_save := _auto_save self;
             _calculations_history := _calculations_history self;
             _db_manager := _db_manager self |}.


Definition history_count (self : t) : nat :=
  length (_calculations_history self).

Definition total_cost_sum (self : t) : Q :=
  fold_left (fun acc r => acc + CalculationResult._total_cost r)
            (_calculations_history self) 0.

Definition get_history (self : t) : list CalculationResult.t :=
  _calculations_history self.

Definition with_history (self : t) (h : list CalculationResult.t) : t :=
  {| _reserve_percent := _reserve_percent self;
     _min_area := _min_area self;
     _max_area := _max_area self;
     _precision := _precision self;
     _currency := _currency self;
     _auto_save := _auto_save self;
     _calculations_history := h;
     _db_manager := _db_manager self |}.


(** [len(self)], [bool(self)] and [item in self]. *)
Definition __len__ (self : t) : nat := length (_calculations_history self).

Definition __bool__ (self : t) : bool :=
  negb (Nat.eqb (length (_calculations_history self)) 0).

Definition __contains__ (self : t) (item : CalculationResult.t) : bool :=
  existsb (fun r => CalculationResult.eq r item) (_calculations_history self).

(** [MaterialCalculator.__eq__]; [None] stands for an object that is not
    a calculator. *)
Definition __eq__ (self : t) (other : option t) : bool :=
  match other with
  | None => false
  | Some o =>
      Qeq_bool (_reserve_percent self) (_reserve_percent o)
      && Qeq_bool (_min_area self) (_min_area o)
      && Qeq_bool (_max_area self) (_max_area o)
      && py_eq (_precision self) (_precision o)
      && py_eq (_currency self) (_currency o)
      && py_eq (_auto_save self) (_auto_save o)
  end.


(** **** The state a method call runs in

    The calculator object, the external store its database manager writes
    to, and standard output. *)
Record world : Type := {
  self : t;
  store : Store;
  stdout : list line
}.

(** A method body: it ends with a value or an exception, in a new state. *)
Definition M (A : Type) : Type := world -> res A * world.

Definition ret {A} (a : A) : M A := fun w => (Ok a, w).

Definition raise {A} (e : exn) : M A := fun w => (Raise e, w).

Definition bind {A B} (c : M A) (k : A -> M B) : M B :=
  fun w =>
    match c w with
    | (Ok a, w') => k a w'
    | (Raise e, w') => (Raise e, w')
    end.

(** A pure computation that may raise. *)
Definition lift {A} (c : res A) : M A := fun w => (c, w).

Definition get_self : M t := fun w => (Ok (self w), w).

(** [try: body except Exception as e: handler e]. *)
Definition try_except {A} (body : M A) (handler : exn -> M A) : M A :=
  fun w =>
    match body w with
    | (Ok a, w') => (Ok a, w')
    | (Raise e, w') => handler e w'
    end.

(** [self._calculations_history.append(result)]. *)
Definition history_append (result : CalculationResult.t) : M unit :=
  fun w =>
    (Ok tt,
     {| self := with_history (self w)
                  (_calculations_history (self w) ++ [result]);
        store := store w;
        stdout := stdout w |}).

(** [db.save_calculation(result, calculation_type=...)]. *)
Definition db_save (db : DatabaseManager Store)
  (result : CalculationResult.t) (calculation_type : string) : M Z :=
  fun w =>
    let (r, s) := save_calculation db result calculation_type (store w) in
    (r, {| self := self w; store := s; stdout := stdout w |}).

Definition print (l : line) : M unit :=
  fun w =>
    (Ok tt, {| self := self w; store := store w; stdout := stdout w ++ [l] |}).

Declare Scope M_scope.
Delimit Scope M_scope with M.
Notation "x <- c ;; k" := (bind c (fun x => k))
  (at level 61, c at next level, right associativity) : M_scope.
Notation "c ;; k" := (bind c (fun _ => k))
  (at level 61, right associativity) : M_scope.

Definition when {A} (b : bool) (c : M A) : M unit :=
  if b then (c ;; ret tt)%M else ret tt.

(** [MaterialCalculator.calculate]. *)
Definition calculate (material : object) (area : Q) : M CalculationResult.t :=
  (c <- get_self ;;
   when (lt area (_min_area c)) (raise (A := unit) (ValueError AreaBelowMin)) ;;
   when (lt (_max_area c) area) (raise (A := unit) (ValueError AreaAboveMax)) ;;
   match material with
   | NotMaterial _ => raise (ValueError NotAMaterial)
   | Instance m =>
       let area_with_reserve := area * (1 + _reserve_percent c / 100) in
       q <- lift (truediv area_with_reserve (unit_coverage m)) ;;
       let units_needed := ceil q in
       total_cost <- lift (round (inject_Z units_needed * price_per_unit m)
                                 (_precision c)) ;;
       result <- lift (CalculationResult.init m area (inject_Z units_needed)
                         total_cost (_reserve_percent c)) ;;
       when (truthy (_auto_save c))
         (history_append result ;;
          match _db_manager c with
          | Some db =>
              try_except
                (db_save db result "simple" ;; ret tt)
                (fun e => print (SaveWarning e))
          | None => ret tt
          end) ;;
       ret result
   end)%M.

(** The loop of [compare_materials]: one [calculate] per material, in
    order, each result appended to [results]. *)
Fixpoint calculate_each (materials : list object) (area : Q)
  (results : list CalculationResult.t) : M (list CalculationResult.t) :=
  match materials with
  | [] => ret results
  | material :: rest =>
      (result <- calculate material area ;;
       calculate_each rest area (results ++ [result]))%M
  end.

(** [MaterialCalculator.compare_materials]. *)
Definition compare_materials (materials : list object) (area : Q)
  : M (list CalculationResult.t) :=
  match materials with
  | [] => raise (ValueError EmptyMaterials)
  | _ =>
      (results <- calculate_each materials area [] ;;
       ret (sort CalculationResult._total_cost results))%M
  end.

(** **** The value and the effect of [calculate], taken apart

    [compute] is the part of [calculate] up to the construction of the
    result; [commit] is the part after it.  [calculate_eq] below proves
    that [calculate] is the one followed by the other. *)
Definition compute (c : t) (material : object) (area : Q)
  : res CalculationResult.t :=
  if lt area (_min_area c) then Raise (ValueError AreaBelowMin)
  else if lt (_max_area c) area then Raise (ValueError AreaAboveMax)
  else
    match material with
    | NotMaterial _ => Raise (ValueError NotAMaterial)
    | Instance m =>
        (let area_with_reserve := area * (1 + _reserve_percent c / 100) in
         q <- truediv area_with_reserve (unit_coverage m) ;;
         let units_needed := ceil q in
         total_cost <- round (inject_Z units_needed * price_per_unit m)
                             (_precision c) ;;
         CalculationResult.init m area (inject_Z units_needed) total_cost
           (_reserve_percent c))%res
    end.

Definition commit (result : CalculationResult.t) (w : world) : world :=
  if truthy (_auto_save (self w)) then
    let recorded :=
      with_history (self w) (_calculations_history (self w) ++ [result]) in
    match _db_manager (self w) with
    | None => {| self := recorded; store := store w; stdout := stdout w |}
    | Some db =>
        match save_calculation db result "simple" (store w) with
        | (Ok _, s) => {| self := recorded; store := s; stdout := stdout w |}
        | (Raise e, s) =>
            {| self := recorded; store := s;
               stdout := stdout w ++ [SaveWarning e] |}
        end
    end
  else w.

(** [calculated_in_turn area w ms rs w']: starting in [w], one call of
    [calculate] per element of [ms], in order, returns the results [rs]
    and ends in [w']. *)
Inductive calculated_in_turn (area : Q)
  : world -> list object -> list CalculationResult.t -> world -> Prop :=
  | turn_nil (w : world) : calculated_in_turn area w [] [] w
  | turn_cons (w w1 w2 : world) (m : object) (r : CalculationResult.t)
      (ms : list object) (rs : list CalculationResult.t) :
      calculate m area w = (Ok r, w1) ->
      calculated_in_turn area w1 ms rs w2 ->
      calculated_in_turn area w (m :: ms) (r :: rs) w2.

End WithStore.
End MaterialCalculator.

(** *** class RoomCalculator *)
Module RoomCalculator.
Section WithStore.
Variable Store : Type.

Record t : Type := {
  _material_calculator : MaterialCalculator.t Store
}.

(** [RoomCalculator.__init__]: wraps a calculator built with the
    defaults. *)
Definition init : t :=
  {| _material_calculator := MaterialCalculator.init_default Store |}.

Definition reserve_percent (self : t) : Q :=
  MaterialCalculator._reserve_percent (_material_calculator self).

Definition set_reserve_percent (self : t) (value : Q) : res t :=
  (c <- MaterialCalculator.set_reserve_percent (_material_calculator self)
        value ;;
   Ok {| _material_calculator := c |})%res.

Definition calculate_floor_area (length width : Q) : res Q :=
  if le length 0 || le width 0 then Raise (ValueError RoomSizeNotPositive)
  else Ok (length * width).

Definition calculate_wall_area (perimeter height door_area window_area : Q)
  : res Q :=
  if le perimeter 0 || le height 0
  then Raise (ValueError WallSizeNotPositive)
  else if lt door_area 0 || lt window_area 0
  then Raise (ValueError OpeningNegative)
  else
    let total_wall_area := perimeter * height in
    let result_area := total_wall_area - door_area - window_area in
    if le result_area 0 then Raise (ValueError WallAreaNotPositive)
    else Ok result_area.

(** [calculate_materials_for_room], run on the state of the wrapped
    calculator. *)
Definition calculate_materials_for_room (material : object)
  (length width : Q) (height : option Q) (door_area window_area : Q)
  (surface_type : string) : MaterialCalculator.M Store CalculationResult.t :=
  MaterialCalculator.bind
    (MaterialCalculator.lift
       (if String.eqb surface_type "floor" then
          calculate_floor_area length width
        else if String.eqb surface_type "wall" then
          match height with
          | None => Raise (ValueError HeightMissing)
          | Some h =>
              let perimeter := 2 * (length + width) in
              calculate_wall_area perimeter h door_area window_area
          end
        else Raise (ValueError SurfaceTypeInvalid)))
    (fun area => MaterialCalculator.calculate material area).

(** The state a call on the room calculator runs in: the wrapped
    calculator, the external store and standard output. *)
Definition world_of (self : t) (s : Store) (out : list line)
  : MaterialCalculator.world Store :=
  {| MaterialCalculator.self := _material_calculator self;
     MaterialCalculator.store := s;
     MaterialCalculator.stdout := out |}.

(** The room calculators a program can hold: the constructor has no
    argument, and the wrapped calculator is reached only through the
    [reserve_percent] setter and [calculate_materials_for_room]. *)
Inductive made : t -> Prop :=
  | made_init : made init
  | made_reserve (r r' : t) (value : Q) :
      made r -> set_reserve_percent r value = Ok r' -> made r'
  | made_calculate (r : t) (material : object) (length width : Q)
      (height : option Q) (door_area window_area : Q) (surface_type : string)
      (s : Store) (out : list line) :
      made r ->
      made {| _material_calculator :=
                MaterialCalculator.self
                  (snd (calculate_materials_for_room material length width
                          height door_area window_area surface_type
                          (world_of r s out))) |}.

End WithStore.
End RoomCalculator.

(* ================================================================= *)
(** ** Sample objects *)

(** A wallpaper with the default roll, at 1200 per roll. *)
Definition classic_wallpaper : Wallpaper.t :=
  {| Wallpaper.base :=
       {| Material.name := "Classic";
          Material._price_per_unit := 1200;
          Material._unit_coverage := 0.53 * 10.05 |};
     Wallpaper._roll_width := 0.53;
     Wallpaper._roll_length := 10.05 |}.

(** Ten 0.3 m by 0.3 m tiles per box, at 2500 per box. *)
Definition ceramic_tile : Tile.t :=
  {| Tile.base :=
       {| Material.name := "Ceramic";
          Material._price_per_unit := 2500;
          Material._unit_coverage := 0.3 * 0.3 * inject_Z 10 |};
     Tile._tiles_per_box := 10;
     Tile._tile_width := 0.3;
     Tile._tile_height := 0.3 |}.

(** The default wallpaper after [roll_width = 1]. *)
Definition wide_wallpaper : Wallpaper.t :=
  {| Wallpaper.base := Wallpaper.base classic_wallpaper;
     Wallpaper._roll_width := 1;
     Wallpaper._roll_length := 10.05 |}.

(** A wallpaper and a second one that share the name, the price and the
    coverage of [ceramic_tile]: a 1 m by 0.9 m roll and a 0.5 m by 1.8 m
    roll. *)
Definition ceramic_wallpaper : Wallpaper.t :=
  {| Wallpaper.base :=
       {| Material.name := "Ceramic";
          Material._price_per_unit := 2500;
          Material._unit_coverage := 1 * 0.9 |};
     Wallpaper._roll_width := 1;
     Wallpaper._roll_length := 0.9 |}.

Definition ceramic_wallpaper_narrow : Wallpaper.t :=
  {| Wallpaper.base :=
       {| Material.name := "Ceramic";
          Material._price_per_unit := 2500;
          Material._unit_coverage := 0.5 * 1.8 |};
     Wallpaper._roll_width := 0.5;
     Wallpaper._roll_length := 1.8 |}.

(** Stand-ins for Python's hash functions. *)
Definition sample_hash_str (s : string) : Z := Z.of_nat (String.length s).
Definition sample_hash_float (q : Q) : Z := (Qnum q + 7 * Z.pos (Qden q))%Z.
Definition sample_hash_tuple (l : list Z) : Z :=
  fold_left (fun acc h => (31 * acc + h)%Z) l 17%Z.

(** A store that keeps the saved results, with a manager that saves and
    one whose every save fails. *)
Definition rows : Type := list CalculationResult.t.

Definition working_db : DatabaseManager rows :=
  {| save_calculation := fun result _ (s : rows) =>
       (Ok (Z.of_nat (length s) + 1)%Z, s ++ [result]) |}.

Definition failing_db : DatabaseManager rows :=
  {| save_calculation := fun _ _ (s : rows) =>
       (Raise (DatabaseError "unable to open database file"), s) |}.

(** The calculator of the defaults, wired to a database manager. *)
Definition calculator_with (db : DatabaseManager rows)
  : MaterialCalculator.t rows :=
  MaterialCalculator.init 10 0.1 10000 (VInt 2) (VStr "₽") (VBool true)
    (Some db).

(** A calculator built with a reserve of 150 %. *)
Definition calculator_150 : MaterialCalculator.t rows :=
  MaterialCalculator.init 150 0.1 10000 (VInt 2) (VStr "₽") (VBool true) None.

(** The result of the first scenario of the specification: 25 square
    metres of the default wallpaper with a reserve of 10 %. *)
Definition classic_result : CalculationResult.t :=
  {| CalculationResult.material := IsWallpaper classic_wallpaper;
     CalculationResult._area := 25;
     CalculationResult._units_needed := 6;
     CalculationResult._total_cost :=
       round_ndigits (inject_Z 6 * 1200) 2;
     CalculationResult._reserve_percent := 10 |}.

Definition fresh_world (c : MaterialCalculator.t rows)
  : MaterialCalculator.world rows :=
  {| MaterialCalculator.self := c;
     MaterialCalculator.store := [];
     MaterialCalculator.stdout := [] |}.



Definition classic_result_50 : CalculationResult.t :=
  {| CalculationResult.material := IsWallpaper classic_wallpaper;
     CalculationResult._area := 50;
     CalculationResult._units_needed := 11;
     CalculationResult._total_cost :=
       round_ndigits (inject_Z 11 * 1200) 2;
     CalculationResult._reserve_percent := 10 |}.

(** A cheaper wallpaper: a 0.55 m by 10 m roll at 1000, so that 25 square
    metres with a reserve of 10 % take exactly five rolls. *)
Definition budget_wallpaper : Wallpaper.t :=
  {| Wallpaper.base :=
       {| Material.name := "Budget";
          Material._price_per_unit := 1000;
          Material._unit_coverage := 0.55 * 10 |};
     Wallpaper._roll_width := 0.55;
     Wallpaper._roll_length := 10 |}.

Definition budget_result : CalculationResult.t :=
  {| CalculationResult.material := IsWallpaper budget_wallpaper;
     CalculationResult._area := 25;
     CalculationResult._units_needed := 5;
     CalculationResult._total_cost :=
       round_ndigits (inject_Z 5 * 1000) 2;
     CalculationResult._reserve_percent := 10 |}.

(** A wallpaper with the roll and the price of [classic_wallpaper] under
    another name: its results tie with those of [classic_wallpaper]. *)
Definition retro_wallpaper : Wallpaper.t :=
  {| Wallpaper.base :=
       {| Material.name := "Retro";
          Material._price_per_unit := 1200;
          Material._unit_coverage := 0.53 * 10.05 |};
     Wallpaper._roll_width := 0.53;
     Wallpaper._roll_length := 10.05 |}.

Definition retro_result : CalculationResult.t :=
  {| CalculationResult.material := IsWallpaper retro_wallpaper;
     CalculationResult._area := 25;
     CalculationResult._units_needed := 6;
     CalculationResult._total_cost :=
       round_ndigits (inject_Z 6 * 1200) 2;
     CalculationResult._reserve_percent := 10 |}.

(** Three wallpapers to compare: the first two tie at 7200, the third
    costs 5000. *)
Definition three_wallpapers : list object :=
  [Instance (IsWallpaper classic_wallpaper);
   Instance (IsWallpaper retro_wallpaper);
   Instance (IsWallpaper budget_wallpaper)].



Definition the_wallpaper : object := Instance (IsWallpaper classic_wallpaper).

(** Two states whose history already holds one result: the calculator of
    the defaults, and the one built with a reserve of 150 %. *)
Definition busy_world : MaterialCalculator.world rows :=
  {| MaterialCalculator.self :=
       MaterialCalculator.with_history (MaterialCalculator.init_default rows)
         [classic_result];
     MaterialCalculator.store := [];
     MaterialCalculator.stdout := [] |}.

Definition busy_world_150 : MaterialCalculator.world rows :=
  {| MaterialCalculator.self :=
       MaterialCalculator.with_history calculator_150 [classic_result];
     MaterialCalculator.store := [];
     MaterialCalculator.stdout := [] |}.


(** A list to compare whose second element is not a material. *)
Definition wallpaper_then_text : list object :=
  [Instance (IsWallpaper classic_wallpaper); NotMaterial (VStr "tile")].



(** A calculator with auto-save off and a database manager that would
    fail. *)
Definition quiet_calculator : MaterialCalculator.t rows :=
  MaterialCalculator.init 10 0.1 10000 (VInt 2) (VStr "₽") (VBool false)
    (Some failing_db).

(* ================================================================= *)
(** ** The numeric expressions on binary64 floats

    A Python [float] is an IEEE 754 binary64 number, and every one of
    [+], [-], [*] and [/] returns the float nearest to the exact result,
    ties to the even mantissa.  The module below reads the numeric
    expressions of [calculate], [calculate_wall_area] and
    [calculate_cost_per_sqm] that way, with the operations of the
    Standard Library's [SpecFloat] at precision 53 and maximal exponent
    1024.  A Python [int] of magnitude up to [2^53]
    behaves in these expressions as the float of the same value, so the
    numbers are given as floats. *)
Module Binary64.

Definition float : Type := spec_float.

Definition prec : Z := 53.
Definition emax : Z := 1024.

Definition add : float -> float -> float := SFadd prec emax.
Definition sub : float -> float -> float := SFsub prec emax.
Definition mul : float -> float -> float := SFmul prec emax.
Definition div : float -> float -> float := SFdiv prec emax.

(** [x < y], [x <= y] and [x == y]; each is [False] on a NaN. *)
Definition lt : float -> float -> bool := SFltb.
Definition le : float -> float -> bool := SFleb.
Definition eqb : float -> float -> bool := SFeqb.

(** The exact value of a finite float. *)
Definition value (x : float) : Q :=
  match x with
  | S754_finite s m e => inject_Z (cond_Zopp s (Z.pos m)) * 2 ^ e
  | _ => 0
  end.

Definition is_nan (x : float) : bool :=
  match x with S754_nan => true | _ => false end.

(** Neither an infinity nor a NaN. *)
Definition is_finite (x : float) : bool :=
  match x with
  | S754_zero _ | S754_finite _ _ _ => true
  | S754_infinity _ | S754_nan => false
  end.

(** The float nearest to an integer: the conversion of an [int] operand
    (an infinity stands for a magnitude beyond the largest float). *)
Definition of_int (n : Z) : float := binary_normalize prec emax n 0 false.

(** The float nearest to a fraction, ties to even; a fraction equal to
    zero gets the sign [s].  The division of [SpecFloat] is applied to
    the numerator and the denominator as they are, whatever their size. *)
Definition nearest (s : bool) (q : Q) : float :=
  match Qnum q with
  | Z0 => S754_zero s
  | Z.pos n => div (S754_finite false n 0) (S754_finite false (Qden q) 0)
  | Z.neg n => div (S754_finite true n 0) (S754_finite false (Qden q) 0)
  end.

(** A decimal literal of the source text, such as [5.5] for
    [literal 55 10]. *)
Definition literal (n : Z) (d : positive) : float := nearest false (n # d).

(** What a call raises: an exception of the classes above, or one of the
    two that only floats bring. *)
Inductive raised : Type :=
  | Exn (e : exn)
  | OverflowError         (* an infinity, or a magnitude no float has *)
  | NaNToInteger.         (* ValueError: a NaN has no integer value *)

Inductive outcome (A : Type) : Type :=
  | Return (a : A)
  | Raises (e : raised).
Arguments Raises {A} e.

Definition outcome_bind {A B} (c : outcome A) (k : A -> outcome B)
  : outcome B :=
  match c with
  | Return a => k a
  | Raises e => Raises e
  end.

Declare Scope outcome_scope.
Delimit Scope outcome_scope with outcome.
Notation "x <- c ;; k" := (outcome_bind c (fun x => k))
  (at level 61, c at next level, right associativity) : outcome_scope.

(** [x / y]: a zero divisor of either sign raises. *)
Definition truediv (x y : float) : outcome float :=
  if eqb y (of_int 0) then Raises (Exn ZeroDivisionError)
  else Return (div x y).

(** [math.ceil(x)]: the least integer not below the value of [x]. *)
Definition ceil (x : float) : outcome Z :=
  match x with
  | S754_zero _ => Return 0%Z
  | S754_finite _ _ _ => Return (Qceiling (value x))
  | S754_infinity _ => Raises OverflowError
  | S754_nan => Raises NaNToInteger
  end.

(** The float of an [int] operand of [*]; an [int] too large for a float
    raises. *)
Definition float_of_int (n : Z) : outcome float :=
  match of_int n with
  | S754_infinity _ => Raises OverflowError
  | x => Return x
  end.

(** [round(x, n)] for an integer [n].  The value of [x] is rounded half
    to even at [n] decimal digits, exactly, and the decimal number
    obtained is converted to the nearest float.  Past 323 digits every
    float is its own rounding; below -308 digits the result is a zero of
    the sign of [x].  Zeros, infinities and NaNs round to themselves. *)
Definition double_round (x : float) (n : Z) : outcome float :=
  match x with
  | S754_finite s _ _ =>
      if (323 <? n)%Z then Return x
      else if (n <? -308)%Z then Return (S754_zero s)
      else
        match nearest s (round_ndigits (value x) n) with
        | S754_infinity _ => Raises OverflowError
        | rounded => Return rounded
        end
  | _ => Return x
  end.

(** [round(x, ndigits)].  Without digits the result is the integer
    nearest to [x], ties to even, which the attribute setter then
    converts with [float]. *)
Definition round (x : float) (ndigits : pyval) : outcome float :=
  match ndigits with
  | VNone =>
      match x with
      | S754_infinity _ => Raises OverflowError
      | S754_nan => Raises NaNToInteger
      | _ => Return (of_int (round_half_even (value x)))
      end
  | VInt n => double_round x n
  | VBool b => double_round x (if b then 1 else 0)%Z
  | VFloat _ | VStr _ => Raises (Exn (TypeError NdigitsNotInteger))
  end.

(** *** class Material: the attributes of the base class *)
Module Material.

Record t : Type := {
  name : string;
  _price_per_unit : float;
  _unit_coverage : float
}.

(** A price and a coverage above zero, as the two setters require. *)
Definition valid (m : t) : Prop :=
  lt (of_int 0) (_price_per_unit m) = true /\
  lt (of_int 0) (_unit_coverage m) = true.

Definition calculate_cost_per_sqm (self : t) : outcome float :=
  truediv (_price_per_unit self) (_unit_coverage self).

End Material.

(** An argument passed as a material: an instance, or something else. *)
Inductive object : Type :=
  | Instance (m : Material.t)
  | NotMaterial (v : pyval).

(** [Material.__eq__]. *)
Definition __eq__ (self : Material.t) (other : object) : bool :=
  match other with
  | NotMaterial _ => false
  | Instance o =>
      String.eqb (Material.name self) (Material.name o)
      && eqb (Material._price_per_unit self) (Material._price_per_unit o)
      && eqb (Material._unit_coverage self) (Material._unit_coverage o)
  end.

(** [Material.__lt__]: by cost per square metre; [None] stands for
    [NotImplemented]. *)
Definition __lt__ (self : Material.t) (other : object)
  : outcome (option bool) :=
  match other with
  | NotMaterial _ => Return None
  | Instance o =>
      (a <- Material.calculate_cost_per_sqm self ;;
       b <- Material.calculate_cost_per_sqm o ;;
       Return (Some (lt a b)))%outcome
  end.

(** *** class CalculationResult *)
Module CalculationResult.

Record t : Type := {
  material : Material.t;
  _area : float;
  _units_needed : Z;
  _total_cost : float;
  _reserve_percent : float
}.

(** [CalculationResult.__init__]: the setters of [area], [units_needed],
    [total_cost] and [reserve_percent], in this order. *)
Definition init (m : Material.t) (area : float) (units_needed : Z)
  (total_cost reserve_percent : float) : outcome t :=
  if le area (of_int 0)
  then Raises (Exn (ValueError ResultAreaNotPositive))
  else if (units_needed <=? 0)%Z
  then Raises (Exn (ValueError ResultUnitsNotPositive))
  else if lt total_cost (of_int 0)
  then Raises (Exn (ValueError ResultCostNegative))
  else if lt reserve_percent (of_int 0) || lt (of_int 100) reserve_percent
  then Raises (Exn (ValueError ResultReserveOutOfRange))
  else Return {| material := m; _area := area;
                 _units_needed := units_needed;
                 _total_cost := total_cost;
                 _reserve_percent := reserve_percent |}.

End CalculationResult.

(** *** class MaterialCalculator: the numeric settings *)
Module MaterialCalculator.

Record t : Type := {
  _reserve_percent : float;
  _min_area : float;
  _max_area : float;
  _precision : pyval
}.

(** The defaults of the signature. *)
Definition init_default : t :=
  {| _reserve_percent := of_int 10;
     _min_area := literal 1 10;
     _max_area := of_int 10000;
     _precision := VInt 2 |}.

(** [MaterialCalculator.calculate], up to the construction of the
    result: what the call returns or raises.  (The history and the
    database manager, which come after, do not look at the numbers.) *)
Definition calculate (self : t) (material : object) (area : float)
  : outcome CalculationResult.t :=
  if lt area (_min_area self)
  then Raises (Exn (ValueError AreaBelowMin))
  else if lt (_max_area self) area
  then Raises (Exn (ValueError AreaAboveMax))
  else
    match material with
    | NotMaterial _ => Raises (Exn (ValueError NotAMaterial))
    | Instance m =>
        (fraction <- truediv (_reserve_percent self) (of_int 100) ;;
         let area_with_reserve := mul area (add (of_int 1) fraction) in
         q <- truediv area_with_reserve (Material._unit_coverage m) ;;
         units_needed <- ceil q ;;
         units <- float_of_int units_needed ;;
         total_cost <- round (mul units (Material._price_per_unit m))
                             (_precision self) ;;
         CalculationResult.init m area units_needed total_cost
           (_reserve_percent self))%outcome
    end.

(** The quotient [calculate] takes the ceiling of:
    [area * (1 + reserve_percent / 100) / unit_coverage], each of the four
    operations rounded to the nearest float. *)
Definition quotient (reserve_percent unit_coverage area : float) : float :=
  div (mul area (add (of_int 1) (div reserve_percent (of_int 100))))
      unit_coverage.

End MaterialCalculator.

(** *** class RoomCalculator *)
Module RoomCalculator.

Definition calculate_wall_area (perimeter height door_area window_area : float)
  : outcome float :=
  if le perimeter (of_int 0) || le height (of_int 0)
  then Raises (Exn (ValueError WallSizeNotPositive))
  else if lt door_area (of_int 0) || lt window_area (of_int 0)
  then Raises (Exn (ValueError OpeningNegative))
  else
    let total_wall_area := mul perimeter height in
    let result_area := sub (sub total_wall_area door_area) window_area in
    if le result_area (of_int 0)
    then Raises (Exn (ValueError WallAreaNotPositive))
    else Return result_area.

End RoomCalculator.

(** *** Sample objects *)

(** The wallpaper of the default roll, 0.53 m by 10.05 m, at 1200. *)
Definition classic_wallpaper : Material.t :=
  {| Material.name := "Classic";
     Material._price_per_unit := of_int 1200;
     Material._unit_coverage := mul (literal 53 100) (literal 1005 100) |}.

(** A 0.55 m by 10 m roll at 1000; its coverage is the float 5.5. *)
Definition budget_wallpaper : Material.t :=
  {| Material.name := "Budget";
     Material._price_per_unit := of_int 1000;
     Material._unit_coverage := mul (literal 55 100) (of_int 10) |}.

(** Ten 0.3 m by 0.3 m tiles per box, at 2500 per box: the coverage is
    [0.3 * 0.3 * 10], the float 0.8999999999999999. *)
Definition ceramic_tile : Material.t :=
  {| Material.name := "Ceramic";
     Material._price_per_unit := of_int 2500;
     Material._unit_coverage :=
       mul (mul (literal 3 10) (literal 3 10)) (of_int 10) |}.

(** A border sold by pieces of 0.3 square metres, at 100 a piece. *)
Definition border : Material.t :=
  {| Material.name := "Border";
     Material._price_per_unit := of_int 100;
     Material._unit_coverage := literal 3 10 |}.

(** The first scenario of the specification: 25 square metres of the
    classic wallpaper with the default calculator. *)
Definition classic_result : CalculationResult.t :=
  {| CalculationResult.material := classic_wallpaper;
     CalculationResult._area := of_int 25;
     CalculationResult._units_needed := 6;
     CalculationResult._total_cost := of_int 7200;
     CalculationResult._reserve_percent := of_int 10 |}.

(** The default calculator after [reserve_percent = 0]. *)
Definition without_reserve : MaterialCalculator.t :=
  {| MaterialCalculator._reserve_percent := of_int 0;
     MaterialCalculator._min_area := literal 1 10;
     MaterialCalculator._max_area := of_int 10000;
     MaterialCalculator._precision := VInt 2 |}.

End Binary64.

(* ================================================================= *)
(** ** Comparisons, ceiling and rounding *)

Lemma le_true (x y : Q) : le x y = true <-> x <= y.
Proof. unfold le. apply Qle_bool_iff. Qed.

Lemma le_false (x y : Q) : le x y = false <-> y < x.
Proof.
  unfold le. split; intros H.
  - apply Qnot_le_lt. intros C. apply Qle_bool_iff in C. congruence.
  - destruct (Qle_bool x y) eqn:E; [|reflexivity].
    apply Qle_bool_iff in E. exfalso. lra.
Qed.

Lemma lt_true (x y : Q) : lt x y = true <-> x < y.
Proof.
  unfold lt. rewrite negb_true_iff. apply (le_false y x).
Qed.

Lemma lt_false (x y : Q) : lt x y = false <-> y <= x.
Proof.
  unfold lt. rewrite negb_false_iff. apply (le_true y x).
Qed.

(** Turn every comparison of the goal and the context into an order fact. *)
Ltac order_facts :=
  repeat match goal with
  | H : le _ _ = true |- _ => apply le_true in H
  | H : le _ _ = false |- _ => apply le_false in H
  | H : lt _ _ = true |- _ => apply lt_true in H
  | H : lt _ _ = false |- _ => apply lt_false in H
  | H : _ || _ = true |- _ => apply orb_true_iff in H
  | H : _ || _ = false |- _ => apply orb_false_iff in H; destruct H
  end.

(** Decide the comparisons that occur in the goal, one after the other. *)
Ltac split_tests :=
  repeat match goal with
  | |- context [le ?a ?b] => destruct (le a b) eqn:?; simpl
  | |- context [lt ?a ?b] => destruct (lt a b) eqn:?; simpl
  end.

(* ================================================================= *)
(** ** Binary64: comparisons *)

Section Binary64Facts.
Import Binary64.

Lemma of_int_0 : of_int 0 = S754_zero false.
Proof. reflexivity. Qed.

(** Some floats and roundings, as mantissa and exponent: 0.1 is
    [0x1.999999999999ap-4]; [0.1 + 0.2] is the float after 0.3;
    [round(2.675, 2)] is 2.67, since the float 2.675 is below the
    decimal; [round(2.5, 0)] and [round(0.125, 2)] are ties and go to the
    even digit. *)
Lemma sample_floats :
  literal 1 10 = S754_finite false 7205759403792794 (-56) /\
  add (literal 1 10) (literal 2 10) = S754_finite false 5404319552844596 (-54) /\
  literal 3 10 = S754_finite false 5404319552844595 (-54) /\
  round (literal 2675 1000) (VInt 2) = Return (literal 267 100) /\
  round (literal 25 10) (VInt 0) = Return (of_int 2) /\
  round (literal 125 1000) (VInt 2) = Return (literal 12 100) /\
  round (literal 25 10) VNone = Return (of_int 2) /\
  ceil (div (literal 9 10) (literal 3 10)) = Return 3%Z.
Proof.
  repeat (split; [vm_compute; reflexivity|]). vm_compute. reflexivity.
Qed.

(** A float that is neither a NaN nor at most zero is above zero. *)
Lemma float_not_le_zero (x : float) :
  is_nan x = false -> le x (of_int 0) = false -> lt (of_int 0) x = true.
Proof.
  rewrite of_int_0. destruct x as [s|s| |s m e]; try destruct s;
    cbn; congruence.
Qed.

Lemma float_lt_zero_nonzero (x : float) :
  lt (of_int 0) x = true -> eqb x (of_int 0) = false.
Proof.
  rewrite of_int_0. destruct x as [s|s| |s m e]; try destruct s;
    cbn; congruence.
Qed.

Lemma float_lt_irrefl (x : float) : lt x x = false.
Proof.
  unfold lt, SFltb.
  destruct x as [s|s| |s m e]; try destruct s; cbn; try reflexivity;
    rewrite Z.compare_refl, Pos.compare_cont_refl; reflexivity.
Qed.

(** [<] on floats is transitive, whatever the floats are. *)
Lemma float_lt_trans (x y z : float) :
  lt x y = true -> lt y z = true -> lt x z = true.
Proof.
  unfold lt, SFltb.
  destruct x as [sx|sx| |sx mx ex], y as [sy|sy| |sy my ey],
    z as [sz|sz| |sz mz ez];
    try destruct sx; try destruct sy; try destruct sz; cbn;
    try congruence;
    change (Pos.compare_cont Eq mx my) with (Pos.compare mx my);
    change (Pos.compare_cont Eq my mz) with (Pos.compare my mz);
    change (Pos.compare_cont Eq mx mz) with (Pos.compare mx mz);
    destruct (Z.compare_spec ex ey), (Z.compare_spec ey ez),
      (Z.compare_spec ex ez); try congruence; try lia;
    destruct (Pos.compare_spec mx my), (Pos.compare_spec my mz),
      (Pos.compare_spec mx mz); cbn; try congruence; lia.
Qed.

(** Two floats above zero that [==] holds of are the same float. *)
Lemma float_eqb_positive_eq (x y : float) :
  lt (of_int 0) x = true -> eqb x y = true -> x = y.
Proof.
  rewrite of_int_0. unfold lt, eqb, SFltb, SFeqb.
  destruct x as [sx|sx| |sx mx ex], y as [sy|sy| |sy my ey];
    try destruct sx; try destruct sy; cbn; try congruence.
  intros _. destruct (Z.compare_spec ex ey); try discriminate.
  destruct (Pos.compare_cont Eq mx my) eqn:C; try discriminate.
  apply Pos.compare_eq in C. congruence.
Qed.

(* ================================================================= *)
(** ** Binary64: rounding never makes a NaN *)

Lemma shr_1_nonneg (mrs : shr_record) :
  (0 <= shr_m mrs)%Z -> (0 <= shr_m (shr_1 mrs))%Z.
Proof.
  destruct mrs as [m r s]. cbn.
  destruct m as [|p|p]; [| destruct p | ]; cbn; lia.
Qed.

Lemma iter_shr_1_nonneg (p : positive) :
  forall mrs, (0 <= shr_m mrs)%Z -> (0 <= shr_m (iter_pos shr_1 p mrs))%Z.
Proof.
  induction p as [p IH|p IH|]; intros mrs H; cbn.
  - apply IH, IH, shr_1_nonneg, H.
  - apply IH, IH, H.
  - apply shr_1_nonneg, H.
Qed.

Lemma shr_fexp_nonneg (m e : Z) (l : location) :
  (0 <= m)%Z -> (0 <= shr_m (fst (shr_fexp prec emax m e l)))%Z.
Proof.
  intros H. unfold shr_fexp, shr.
  assert (H0 : (0 <= shr_m (shr_record_of_loc m l))%Z)
    by (destruct l as [|[]]; exact H).
  destruct (_ - e)%Z; cbn [fst]; try exact H0.
  apply iter_shr_1_nonneg, H0.
Qed.

Lemma round_nearest_even_nonneg (m : Z) (l : location) :
  (0 <= m)%Z -> (0 <= round_nearest_even m l)%Z.
Proof.
  intros H. destruct l as [|[]]; cbn; try lia.
  destruct (Z.even m); lia.
Qed.

Lemma binary_round_aux_not_nan (s : bool) (m e : Z) (l : location) :
  (0 <= m)%Z -> is_nan (binary_round_aux prec emax s m e l) = false.
Proof.
  intros H. unfold binary_round_aux.
  pose proof (shr_fexp_nonneg e l H) as H1.
  destruct (shr_fexp prec emax m e l) as [mrs' e']. cbn [fst] in H1.
  pose proof (shr_fexp_nonneg e' loc_Exact
                (round_nearest_even_nonneg (loc_of_shr_record mrs') H1)) as H2.
  destruct (shr_fexp prec emax _ e' loc_Exact) as [mrs'' e''].
  cbn [fst] in H2.
  destruct (shr_m mrs'') as [|p|p]; try reflexivity; try lia.
  destruct (_ <=? _)%Z; reflexivity.
Qed.

Lemma binary_normalize_not_nan (m e : Z) (s : bool) :
  is_nan (binary_normalize prec emax m e s) = false.
Proof.
  unfold binary_normalize, binary_round.
  destruct m as [|p|p]; try reflexivity;
    destruct (shl_align _ _ _) as [mz ez];
    apply binary_round_aux_not_nan; lia.
Qed.

(** The product of two finite floats is a float or an infinity. *)
Lemma float_mul_not_nan (x y : float) :
  is_finite x = true -> is_finite y = true -> is_nan (mul x y) = false.
Proof.
  destruct x as [sx|sx| |sx mx ex], y as [sy|sy| |sy my ey];
    try discriminate; intros _ _; try reflexivity.
  apply binary_round_aux_not_nan. lia.
Qed.

(** Taking a finite float off a float or an infinity leaves one. *)
Lemma float_sub_not_nan (x y : float) :
  is_nan x = false -> is_finite y = true -> is_nan (sub x y) = false.
Proof.
  destruct x as [sx|sx| |sx mx ex], y as [sy|sy| |sy my ey];
    try discriminate; intros _ _; try reflexivity.
  - destruct sx, sy; reflexivity.
  - apply binary_normalize_not_nan.
Qed.

(* ================================================================= *)
(** ** Binary64: the ceiling *)

(** [math.ceil] returns on the finite floats only, and what it returns
    is the least integer not below the float. *)
Lemma float_ceil_spec (x : float) (n : Z) :
  ceil x = Return n ->
  is_finite x = true /\ n = Qceiling (value x) /\
  inject_Z n - 1 < value x /\ value x <= inject_Z n.
Proof.
  assert (H : forall q, inject_Z (Qceiling q) - 1 < q /\
                        q <= inject_Z (Qceiling q)).
  { intros q. split; [|apply Qle_ceiling].
    pose proof (Qceiling_lt q) as L.
    replace (Qceiling q - 1)%Z with (Qceiling q + -1)%Z in L by lia.
    rewrite inject_Z_plus in L. change (inject_Z (-1)) with (-1) in L. lra. }
  destruct x as [s|s| |s m e]; try discriminate; intros E; injection E as <-.
  - split; [reflexivity|]. split; [reflexivity|]. cbn. split; reflexivity || discriminate.
  - split; [reflexivity|]. split; [reflexivity|]. apply H.
Qed.

End Binary64Facts.

(* ================================================================= *)
(** ** RoomCalculator: wall area *)

Section WallArea.
Import Binary64.

(** C6, as stated, fails.  With a perimeter of 14, a height of 2.5, a
    door of 0.1 and windows of 34.9 the two openings are together
    smaller than the wall, as the values of the floats are; the call
    raises, because [35.0 - 0.1 - 34.9] is [0.0].  With the door and the
    windows swapped the float [door_area + window_area] is 35.0, as
    large as the wall; the call returns.  With a perimeter of 0.1, a
    height of 3 and a door of 0.3 the call returns a float that is not
    the difference of the wall and the door. *)
Lemma wall_area_differs_from_exact :
  (value (literal 1 10) + value (literal 349 10)
   < value (of_int 14) * value (literal 25 10) /\
   RoomCalculator.calculate_wall_area (of_int 14) (literal 25 10)
     (literal 1 10) (literal 349 10)
   = Raises (Exn (ValueError WallAreaNotPositive))) /\
  (le (mul (of_int 14) (literal 25 10))
      (add (literal 349 10) (literal 1 10)) = true /\
   exists r,
     RoomCalculator.calculate_wall_area (of_int 14) (literal 25 10)
       (literal 349 10) (literal 1 10) = Return r) /\
  (exists r,
     RoomCalculator.calculate_wall_area (literal 1 10) (of_int 3)
       (literal 3 10) (of_int 0) = Return r /\
     ~ value r
       == value (literal 1 10) * value (of_int 3) - value (literal 3 10)
          - value (of_int 0)).
Proof.
  split; [|split].
  - split; vm_compute; reflexivity.
  - split; [vm_compute; reflexivity|]. eexists. vm_compute. reflexivity.
  - eexists. split; [vm_compute; reflexivity|]. vm_compute. discriminate.
Qed.

(** C6, amended.  [calculate_wall_area] raises a [ValueError] when the
    perimeter or the height is at most zero, when an opening area is
    below zero, or when [result_area] is at most zero, where
    [result_area] is the float [(perimeter * height - door_area) -
    window_area], each operation rounded; for every other input it
    returns [result_area].  On finite arguments the float returned is
    above zero. *)
Theorem calculate_wall_area_binary64 (p h d w : float) :
  let zero := of_int 0 in
  let result_area := sub (sub (mul p h) d) w in
  (le p zero = true \/ le h zero = true \/ lt d zero = true \/
   lt w zero = true \/ le result_area zero = true ->
   exists e, RoomCalculator.calculate_wall_area p h d w
             = Raises (Exn (ValueError e))) /\
  (le p zero = false -> le h zero = false -> lt d zero = false ->
   lt w zero = false -> le result_area zero = false ->
   RoomCalculator.calculate_wall_area p h d w = Return result_area) /\
  (is_finite p = true -> is_finite h = true -> is_finite d = true ->
   is_finite w = true -> le result_area zero = false ->
   lt zero result_area = true).
Proof.
  cbv zeta. unfold RoomCalculator.calculate_wall_area.
  split; [|split].
  - intros H.
    destruct (le p (of_int 0)); [eexists; reflexivity|].
    destruct (le h (of_int 0)); [eexists; reflexivity|].
    destruct (lt d (of_int 0)); [eexists; reflexivity|].
    destruct (lt w (of_int 0)); [eexists; reflexivity|].
    destruct (le (sub (sub (mul p h) d) w) (of_int 0));
      [eexists; reflexivity|].
    exfalso. destruct H as [H|[H|[H|[H|H]]]]; discriminate.
  - intros -> -> -> -> ->. reflexivity.
  - intros Hp Hh Hd Hw Hr. apply float_not_le_zero; [|exact Hr].
    apply float_sub_not_nan; [|exact Hw].
    apply float_sub_not_nan; [|exact Hd].
    apply float_mul_not_nan; assumption.
Qed.

(** The third scenario of the specification: perimeter 14, height 2.5,
    a 2 square metre door and a 1.5 square metre window leave 31.5. *)
Lemma calculate_wall_area_binary64_witness :
  RoomCalculator.calculate_wall_area (of_int 14) (literal 25 10) (of_int 2)
    (literal 15 10) = Return (literal 315 10) /\
  lt (of_int 0) (literal 315 10) = true.
Proof.
  destruct (calculate_wall_area_binary64 (of_int 14) (literal 25 10)
              (of_int 2) (literal 15 10)) as (_ & Hreturns & Hpositive).
  split.
  - apply Hreturns; vm_compute; reflexivity.
  - apply Hpositive; vm_compute; reflexivity.
Defined.

End WallArea.

(* ================================================================= *)
(** ** Materials: derived coverage *)

Lemma res_bind_ok {A B} (c : res A) (k : A -> res B) (b : B) :
  res_bind c k = Ok b -> exists a, c = Ok a /\ k a = Ok b.
Proof.
  destruct c as [a|e]; simpl; intros H; [eauto | discriminate].
Qed.

(** Decompose a successful chain of calls into its successful steps. *)
Ltac ok_steps :=
  repeat match goal with
  | H : res_bind _ _ = Ok _ |- _ =>
      let a := fresh "a" in
      let Ha := fresh "Ha" in
      apply res_bind_ok in H; destruct H as (a & Ha & H)
  | H : Ok _ = Ok _ |- _ => injection H as H
  | H : Some _ = Some _ |- _ => injection H as H
  end.

Lemma material_init_coverage (n : string) (price coverage : Q) (b : Material.t) :
  Material.init n price coverage = Ok b ->
  Material.name b = n /\ Material._price_per_unit b = price /\
  Material._unit_coverage b = coverage /\ 0 < price /\ 0 < coverage.
Proof.
  unfold Material.init, Material.set_price_per_unit, Material.set_unit_coverage.
  simpl. destruct (le price 0) eqn:Hp; simpl; [discriminate|].
  destruct (le coverage 0) eqn:Hc; simpl; [discriminate|].
  intros H. injection H as <-. simpl. order_facts. auto.
Qed.

(** The constructors compute the coverage from the geometry they store. *)
Lemma wallpaper_init_coverage n p w l (x : Wallpaper.t) :
  Wallpaper.init n p w l = Ok x ->
  unit_coverage (IsWallpaper x) = coverage_formula (IsWallpaper x).
Proof.
  unfold Wallpaper.init. intros H. ok_steps.
  apply material_init_coverage in Ha1. subst x.
  unfold unit_coverage. simpl. tauto.
Qed.

Lemma tile_init_coverage n p c w h (x : Tile.t) :
  Tile.init n p c w h = Ok x ->
  unit_coverage (IsTile x) = coverage_formula (IsTile x).
Proof.
  unfold Tile.init. intros H. ok_steps.
  apply material_init_coverage in Ha2. subst x.
  unfold unit_coverage. simpl. tauto.
Qed.

Lemma laminate_init_coverage n p c w l (x : Laminate.t) :
  Laminate.init n p c w l = Ok x ->
  unit_coverage (IsLaminate x) = coverage_formula (IsLaminate x).
Proof.
  unfold Laminate.init. intros H. ok_steps.
  apply material_init_coverage in Ha2. subst x.
  unfold unit_coverage. simpl. tauto.
Qed.

(** The sample objects are what the constructors build. *)
Lemma classic_wallpaper_built :
  Wallpaper.init_default "Classic" 1200 = Ok classic_wallpaper.
Proof. reflexivity. Qed.

Lemma ceramic_tile_built :
  Tile.init "Ceramic" 2500 10 0.3 0.3 = Ok ceramic_tile.
Proof. reflexivity. Qed.

(** C2, as stated, fails: widening the roll of the default wallpaper to
    one metre succeeds and leaves the coverage of the 0.53 m roll. *)
Lemma coverage_stale_after_set_roll_width :
  exists m',
    assign (IsWallpaper classic_wallpaper) roll_width 1 = Some (Ok m') /\
    geometry m' roll_width = Some 1 /\
    unit_coverage m' == 0.53 * 10.05 /\
    coverage_formula m' == 1 * 10.05 /\
    ~ unit_coverage m' == coverage_formula m'.
Proof.
  eexists. split; [reflexivity|]. split; [reflexivity|].
  split; [reflexivity|]. split; [reflexivity|]. discriminate.
Qed.

(** C2, amended.  A constructor sets [unit_coverage] to the coverage
    formula of the geometry it stores.  A successful assignment to a
    geometric attribute stores the new value in that attribute and leaves
    the other attributes, the name, the price and [unit_coverage] as they
    were: the coverage is not recomputed. *)
Theorem geometry_setter_keeps_coverage :
  (forall n p w l x, Wallpaper.init n p w l = Ok x ->
     unit_coverage (IsWallpaper x) = coverage_formula (IsWallpaper x)) /\
  (forall n p c w h x, Tile.init n p c w h = Ok x ->
     unit_coverage (IsTile x) = coverage_formula (IsTile x)) /\
  (forall n p c w l x, Laminate.init n p c w l = Ok x ->
     unit_coverage (IsLaminate x) = coverage_formula (IsLaminate x)) /\
  (forall m attr value m', assign m attr value = Some (Ok m') ->
     base_of m' = base_of m /\
     unit_coverage m' = unit_coverage m /\
     geometry m' attr = Some (stored attr value) /\
     forall other, other <> attr -> geometry m' other = geometry m other).
Proof.
  split; [exact wallpaper_init_coverage|].
  split; [exact tile_init_coverage|].
  split; [exact laminate_init_coverage|].
  intros m attr value m' H. unfold unit_coverage.
  enough (base_of m' = base_of m /\
          geometry m' attr = Some (stored attr value) /\
          forall other, other <> attr -> geometry m' other = geometry m other)
    as (E & Hg & Ho) by (rewrite E; auto).
  destruct m as [w|t|l], attr; simpl in H; try discriminate;
    ok_steps; subst m';
    match goal with
    | H : _ = Ok ?a |- _ =>
        unfold Wallpaper.set_roll_width, Wallpaper.set_roll_length,
          Tile.set_tiles_per_box, Tile.set_tile_width, Tile.set_tile_height,
          Laminate.set_planks_per_pack, Laminate.set_plank_width,
          Laminate.set_plank_length,
          Wallpaper.check_roll_width, Wallpaper.check_roll_length,
          Tile.check_tiles_per_box, Tile.check_tile_width,
          Tile.check_tile_height, Laminate.check_planks_per_pack,
          Laminate.check_plank_width, Laminate.check_plank_length in H;
        destruct (le value 0); [discriminate|];
        destruct (lt _ value); [discriminate|];
        cbn [res_bind] in H; injection H as <-
    end;
    (split; [reflexivity|]; split; [reflexivity|]);
    intros other Hother; destruct other; try reflexivity; congruence.
Qed.

Lemma geometry_setter_keeps_coverage_witness :
  unit_coverage (IsTile ceramic_tile) = coverage_formula (IsTile ceramic_tile) /\
  (base_of (IsWallpaper wide_wallpaper)
   = base_of (IsWallpaper classic_wallpaper) /\
   unit_coverage (IsWallpaper wide_wallpaper)
   = unit_coverage (IsWallpaper classic_wallpaper) /\
   geometry (IsWallpaper wide_wallpaper) roll_width
   = Some (stored roll_width 1) /\
   forall other, other <> roll_width ->
     geometry (IsWallpaper wide_wallpaper) other
     = geometry (IsWallpaper classic_wallpaper) other).
Proof.
  destruct geometry_setter_keeps_coverage as (_ & Ht & _ & Hset). split.
  - apply (Ht "Ceramic"%string 2500 10 0.3 0.3). reflexivity.
  - apply (Hset (IsWallpaper classic_wallpaper) roll_width 1). reflexivity.
Defined.

(* ================================================================= *)
(** ** Materials: equality and hash *)

Lemma Qeq_bool_true (x y : Q) : x == y -> Qeq_bool x y = true.
Proof. apply Qeq_bool_iff. Qed.

(** C10.  [Material.__eq__] looks at the name, the price and the coverage
    only: two instances on which the three agree are equal, whatever
    their classes and their geometry, and their hashes are equal. *)
Theorem material_eq_ignores_variant
  (hash_str : string -> Z) (hash_float : Q -> Z) (hash_tuple : list Z -> Z)
  (a b : material_t) :
  name a = name b ->
  price_per_unit a == price_per_unit b ->
  unit_coverage a == unit_coverage b ->
  __eq__ a (Instance b) = true /\
  __hash__ hash_str hash_float hash_tuple a =
  __hash__ hash_str hash_float hash_tuple b.
Proof.
  intros Hn Hp Hc. split.
  - unfold __eq__. rewrite Hn, String.eqb_refl.
    rewrite (Qeq_bool_true Hp), (Qeq_bool_true Hc). reflexivity.
  - unfold __hash__, hash_number.
    rewrite Hn, (Qred_complete _ _ Hp), (Qred_complete _ _ Hc). reflexivity.
Qed.

(** A tile and a wallpaper, and two wallpapers with different rolls. *)
Lemma material_eq_ignores_variant_witness :
  (__eq__ (IsTile ceramic_tile) (Instance (IsWallpaper ceramic_wallpaper))
   = true /\
   __hash__ sample_hash_str sample_hash_float sample_hash_tuple
     (IsTile ceramic_tile) =
   __hash__ sample_hash_str sample_hash_float sample_hash_tuple
     (IsWallpaper ceramic_wallpaper)) /\
  (__eq__ (IsWallpaper ceramic_wallpaper)
     (Instance (IsWallpaper ceramic_wallpaper_narrow)) = true /\
   __hash__ sample_hash_str sample_hash_float sample_hash_tuple
     (IsWallpaper ceramic_wallpaper) =
   __hash__ sample_hash_str sample_hash_float sample_hash_tuple
     (IsWallpaper ceramic_wallpaper_narrow)).
Proof.
  split.
  - apply (material_eq_ignores_variant sample_hash_str sample_hash_float
             sample_hash_tuple (IsTile ceramic_tile)
             (IsWallpaper ceramic_wallpaper)); reflexivity.
  - apply (material_eq_ignores_variant sample_hash_str sample_hash_float
             sample_hash_tuple (IsWallpaper ceramic_wallpaper)
             (IsWallpaper ceramic_wallpaper_narrow)); reflexivity.
Defined.

(* ================================================================= *)
(** ** MaterialCalculator: configuration *)

(** C8 fails on the code.  The constructor stores a reserve of 150 % that
    the [reserve_percent] setter rejects; the value is found out only by
    the next [calculate], when the result object refuses it.  The same
    holds for bounds in the wrong order and for a precision of 11. *)
Theorem init_skips_validation :
  let c := MaterialCalculator.init (Store := rows) 150 0.1 10000
             (VInt 2) (VStr "RUB") (VBool true) None in
  let c_area := MaterialCalculator.init (Store := rows) 10 5 1
             (VInt 2) (VStr "RUB") (VBool true) None in
  let c_prec := MaterialCalculator.init (Store := rows) 10 0.1 10000
             (VInt 11) (VStr "RUB") (VBool true) None in
  MaterialCalculator._reserve_percent c = 150 /\
  MaterialCalculator.set_reserve_percent c 150
  = Raise (ValueError ReserveOutOfRange) /\
  fst (MaterialCalculator.calculate (Instance (IsWallpaper classic_wallpaper))
         25 (fresh_world c))
  = Raise (ValueError ResultReserveOutOfRange) /\
  MaterialCalculator._min_area c_area = 5 /\
  MaterialCalculator._max_area c_area = 1 /\
  MaterialCalculator.set_min_area c_area 5
  = Raise (ValueError MinAreaAboveMax) /\
  MaterialCalculator._precision c_prec = VInt 11 /\
  MaterialCalculator.set_precision c_prec (VInt 11)
  = Raise (ValueError PrecisionInvalid).
Proof.
  cbv zeta. repeat split; reflexivity.
Qed.

(** C9, as stated, fails: the empty string is a string, and the
    [currency] setter stores it. *)
Lemma set_currency_accepts_empty :
  exists c',
    MaterialCalculator.set_currency (MaterialCalculator.init_default rows)
      (VStr EmptyString) = Ok c' /\
    MaterialCalculator._currency c' = VStr EmptyString.
Proof. eexists. split; reflexivity. Qed.

(** C9, amended.  The [currency] setter raises a [ValueError] exactly
    when the value is not a string; every string, the empty one included,
    is stored as it is and the rest of the configuration is untouched. *)
Theorem set_currency_spec (Store : Type) (c : MaterialCalculator.t Store)
  (value : pyval) :
  match value with
  | VStr s =>
      exists c',
        MaterialCalculator.set_currency c value = Ok c' /\
        MaterialCalculator._currency c' = VStr s /\
        MaterialCalculator._reserve_percent c'
        = MaterialCalculator._reserve_percent c /\
        MaterialCalculator._min_area c' = MaterialCalculator._min_area c /\
        MaterialCalculator._max_area c' = MaterialCalculator._max_area c /\
        MaterialCalculator._precision c' = MaterialCalculator._precision c /\
        MaterialCalculator._auto_save c' = MaterialCalculator._auto_save c /\
        MaterialCalculator._calculations_history c'
        = MaterialCalculator._calculations_history c
  | _ =>
      MaterialCalculator.set_currency c value
      = Raise (ValueError CurrencyNotString)
  end.
Proof.
  destruct value; try reflexivity.
  eexists. split; [reflexivity|]. simpl. repeat split.
Qed.

(* ================================================================= *)
(** ** Rounding *)

Lemma py_int_inject_Z (z : Z) : py_int (inject_Z z) = z.
Proof.
  unfold py_int. destruct (Qle_bool 0 (inject_Z z));
    [apply Qfloor_Z | apply Qceiling_Z].
Qed.











(* ================================================================= *)
(** ** MaterialCalculator.calculate: value and effect *)

Section Calculate.
Variable Store : Type.

(** [calculate] is [compute] followed, on success, by [commit]. *)
Lemma calculate_eq (material : object) (area : Q) (w : MaterialCalculator.world Store) :
  MaterialCalculator.calculate material area w =
  match MaterialCalculator.compute (MaterialCalculator.self w) material area with
  | Ok r => (Ok r, MaterialCalculator.commit r w)
  | Raise e => (Raise e, w)
  end.
Proof.
  unfold MaterialCalculator.calculate, MaterialCalculator.compute,
    MaterialCalculator.commit, MaterialCalculator.bind,
    MaterialCalculator.when, MaterialCalculator.get_self,
    MaterialCalculator.lift, MaterialCalculator.raise, MaterialCalculator.ret,
    MaterialCalculator.try_except, MaterialCalculator.history_append,
    MaterialCalculator.db_save, MaterialCalculator.print.
  cbn.
  destruct (lt area _); cbn; [reflexivity|].
  destruct (lt _ area); cbn; [reflexivity|].
  destruct material as [m|v]; cbn; [|reflexivity].
  destruct (truediv _ _) as [q|e]; cbn; [|reflexivity].
  destruct (round _ _) as [c|e]; cbn; [|reflexivity].
  destruct (CalculationResult.init _ _ _ _ _) as [r|e]; cbn; [|reflexivity].
  destruct (truthy _); cbn; [|destruct w; reflexivity].
  destruct (MaterialCalculator._db_manager _) as [db|]; cbn; [|reflexivity].
  unfold MaterialCalculator.bind. cbn.
  destruct (save_calculation db r _ (MaterialCalculator.store w))
    as [[i|e] s]; reflexivity.
Qed.

Lemma calculate_ok (material : object) (area : Q) (w w' : MaterialCalculator.world Store)
  (r : CalculationResult.t) :
  MaterialCalculator.calculate material area w = (Ok r, w') <->
  MaterialCalculator.compute (MaterialCalculator.self w) material area = Ok r /\
  w' = MaterialCalculator.commit r w.
Proof.
  rewrite calculate_eq.
  destruct (MaterialCalculator.compute _ _ _) as [r0|e]; split.
  - intros H. injection H as <- <-. auto.
  - intros [H ->]. injection H as <-. reflexivity.
  - discriminate.
  - intros [H _]. discriminate.
Qed.

Lemma calculate_raise (material : object) (area : Q) (w w' : MaterialCalculator.world Store) (e : exn) :
  MaterialCalculator.calculate material area w = (Raise e, w') <->
  MaterialCalculator.compute (MaterialCalculator.self w) material area = Raise e
  /\ w' = w.
Proof.
  rewrite calculate_eq.
  destruct (MaterialCalculator.compute _ _ _) as [r0|e0]; split.
  - discriminate.
  - intros [H _]. discriminate.
  - intros H. injection H as <- <-. auto.
  - intros [H ->]. injection H as <-. reflexivity.
Qed.

(** What [commit] does to the history. *)
Lemma commit_history (r : CalculationResult.t) (w : MaterialCalculator.world Store) :
  MaterialCalculator._calculations_history
    (MaterialCalculator.self (MaterialCalculator.commit r w)) =
  if truthy (MaterialCalculator._auto_save (MaterialCalculator.self w))
  then MaterialCalculator._calculations_history (MaterialCalculator.self w)
       ++ [r]
  else MaterialCalculator._calculations_history (MaterialCalculator.self w).
Proof.
  unfold MaterialCalculator.commit.
  destruct (truthy _); [|reflexivity].
  destruct (MaterialCalculator._db_manager _) as [db|]; [|reflexivity].
  destruct (save_calculation db r _ _) as [[i|e] s]; reflexivity.
Qed.

(** [commit] never touches the configuration. *)
Lemma commit_config (r : CalculationResult.t) (w : MaterialCalculator.world Store) :
  let c := MaterialCalculator.self w in
  let c' := MaterialCalculator.self (MaterialCalculator.commit r w) in
  MaterialCalculator._reserve_percent c' = MaterialCalculator._reserve_percent c
  /\ MaterialCalculator._min_area c' = MaterialCalculator._min_area c
  /\ MaterialCalculator._max_area c' = MaterialCalculator._max_area c
  /\ MaterialCalculator._precision c' = MaterialCalculator._precision c
  /\ MaterialCalculator._auto_save c' = MaterialCalculator._auto_save c
  /\ MaterialCalculator._db_manager c' = MaterialCalculator._db_manager c.
Proof.
  cbv zeta. unfold MaterialCalculator.commit.
  destruct (truthy _); [|repeat split].
  destruct (MaterialCalculator._db_manager _) as [db|] eqn:E.
  - destruct (save_calculation db r _ _) as [[i|e] s]; cbn;
      repeat split; exact E.
  - cbn. repeat split. exact E.
Qed.

(** The failures that C3 lists are failures of [calculate]. *)
Lemma calculate_fails_below_min (material : object) (area : Q) (w : MaterialCalculator.world Store) :
  area < MaterialCalculator._min_area (MaterialCalculator.self w) ->
  MaterialCalculator.calculate material area w
  = (Raise (ValueError AreaBelowMin), w).
Proof.
  intros H. rewrite calculate_eq. unfold MaterialCalculator.compute.
  apply lt_true in H. rewrite H. reflexivity.
Qed.

Lemma calculate_fails_above_max (material : object) (area : Q) (w : MaterialCalculator.world Store) :
  MaterialCalculator._min_area (MaterialCalculator.self w) <= area ->
  MaterialCalculator._max_area (MaterialCalculator.self w) < area ->
  MaterialCalculator.calculate material area w
  = (Raise (ValueError AreaAboveMax), w).
Proof.
  intros H1 H2. rewrite calculate_eq. unfold MaterialCalculator.compute.
  apply lt_false in H1. apply lt_true in H2. rewrite H1, H2. reflexivity.
Qed.

Lemma calculate_fails_not_material (v : pyval) (area : Q) (w : MaterialCalculator.world Store) :
  exists e, MaterialCalculator.calculate (NotMaterial v) area w = (Raise e, w).
Proof.
  rewrite calculate_eq. unfold MaterialCalculator.compute.
  destruct (lt area _); [eauto|]. destruct (lt _ area); eauto.
Qed.

End Calculate.

(* ================================================================= *)
(** ** MaterialCalculator.calculate: what a success means *)




Section Compute.
Variable Store : Type.
Variable c : MaterialCalculator.t Store.
Variable m : material_t.
Variable area : Q.

Local Abbreviation reserve := (MaterialCalculator._reserve_percent c).
Local Abbreviation area_with_reserve := (area * (1 + reserve / 100)).
Local Abbreviation units := (Qceiling (area_with_reserve / unit_coverage m)).

Lemma compute_ok (r : CalculationResult.t) :
  MaterialCalculator.compute c (Instance m) area = Ok r ->
  MaterialCalculator._min_area c <= area /\
  area <= MaterialCalculator._max_area c /\
  ~ unit_coverage m == 0 /\
  CalculationResult.material r = m /\
  CalculationResult._area r = area /\
  CalculationResult._units_needed r = units /\
  round (inject_Z units * price_per_unit m) (MaterialCalculator._precision c)
  = Ok (CalculationResult._total_cost r) /\
  CalculationResult._reserve_percent r = reserve /\
  0 < area /\ (0 < units)%Z /\ 0 <= CalculationResult._total_cost r /\
  0 <= reserve /\ reserve <= 100.
Proof.
  unfold MaterialCalculator.compute, truediv, ceil.
  destruct (lt area _) eqn:Hmin; [discriminate|].
  destruct (lt _ area) eqn:Hmax; [discriminate|].
  destruct (Qeq_bool (unit_coverage m) 0) eqn:Hcov; [discriminate|].
  cbn [res_bind].
  destruct (round _ _) as [cost|e] eqn:Hround; [|discriminate].
  cbn [res_bind]. unfold CalculationResult.init,
    CalculationResult.check_area, CalculationResult.check_units_needed,
    CalculationResult.check_total_cost,
    CalculationResult.check_reserve_percent.
  destruct (le area 0) eqn:Harea; [discriminate|]. cbn [res_bind].
  destruct (le (inject_Z units) 0) eqn:Hunits; [discriminate|]. cbn [res_bind].
  destruct (lt cost 0) eqn:Hcost; [discriminate|]. cbn [res_bind].
  destruct (lt reserve 0 || lt 100 reserve) eqn:Hres; [discriminate|].
  cbn [res_bind]. intros H. injection H as <-. cbn.
  rewrite py_int_inject_Z. order_facts.
  apply Qeq_bool_neq in Hcov.
  assert (0 < units)%Z.
  { rewrite Zlt_Qlt. exact Hunits. }
  repeat split; auto.
Qed.


End Compute.

(* ================================================================= *)
(** ** MaterialCalculator.calculate: the number of units *)

Section Units.
Import Binary64.

(** C1, as stated, fails.  For 25 square metres, a reserve of 10 % and a
    coverage of 5.5 the area with the reserve is five times the coverage
    and the ceiling of the quotient is 5; [calculate] returns 6 units,
    because the float [25 * (1 + 10 / 100)] is 27.500000000000004.  For
    0.9 square metres without reserve and a coverage of 0.3 the ceiling
    of the quotient of the two floats is 4; [calculate] returns 3 units,
    because the float [0.9 / 0.3] is 3.0.  In the second scenario of the
    specification, 9 square metres of the ceramic tile without reserve,
    [calculate] returns 11 boxes, not 10: the coverage of a box is the
    float 0.8999999999999999. *)
Lemma units_differ_from_exact_ceiling :
  (value (of_int 25) * (1 + value (of_int 10) / 100)
   == 5 * value (Material._unit_coverage budget_wallpaper) /\
   Qceiling (value (of_int 25) * (1 + value (of_int 10) / 100)
             / value (Material._unit_coverage budget_wallpaper)) = 5%Z /\
   exists r,
     MaterialCalculator.calculate MaterialCalculator.init_default
       (Instance budget_wallpaper) (of_int 25) = Return r /\
     CalculationResult._units_needed r = 6%Z) /\
  (Qceiling (value (literal 9 10) * (1 + value (of_int 0) / 100)
             / value (Material._unit_coverage border)) = 4%Z /\
   exists r,
     MaterialCalculator.calculate without_reserve (Instance border)
       (literal 9 10) = Return r /\
     CalculationResult._units_needed r = 3%Z) /\
  (exists r,
     MaterialCalculator.calculate without_reserve (Instance ceramic_tile)
       (of_int 9) = Return r /\
     CalculationResult._units_needed r = 11%Z).
Proof.
  split; [|split].
  - split; [vm_compute; reflexivity|].
    split; [vm_compute; reflexivity|].
    eexists. split; [vm_compute; reflexivity|]. reflexivity.
  - split; [vm_compute; reflexivity|].
    eexists. split; [vm_compute; reflexivity|]. reflexivity.
  - eexists. split; [vm_compute; reflexivity|]. reflexivity.
Qed.

Lemma outcome_bind_return {A B} (c : outcome A) (k : A -> outcome B) (b : B) :
  outcome_bind c k = Return b -> exists a, c = Return a /\ k a = Return b.
Proof.
  destruct c as [a|e]; [|discriminate]. intros H. exists a. split; auto.
Qed.

Lemma float_truediv_return (x y z : float) :
  truediv x y = Return z -> z = div x y.
Proof.
  unfold truediv. destruct (eqb y (of_int 0)); congruence.
Qed.

Lemma result_init_units (m : Material.t) (area : float) (units : Z)
  (cost reserve : float) (r : CalculationResult.t) :
  CalculationResult.init m area units cost reserve = Return r ->
  CalculationResult._units_needed r = units.
Proof.
  unfold CalculationResult.init.
  repeat match goal with
         | |- (if ?b then _ else _) = _ -> _ => destruct b; try discriminate
         end.
  intros H. injection H as <-. reflexivity.
Qed.

(** C1, amended.  When [calculate] returns a result, its [units_needed]
    is [math.ceil(q)], where [q] is the float
    [area * (1 + reserve_percent / 100) / unit_coverage] with each of the
    four operations rounded to the nearest float: [q] is finite and
    [units_needed] is the least integer not below it, so a [q] that is an
    integer adds no unit and a [q] strictly between two integers gives
    the upper one.  ([q] is the rounded quotient: an area with reserve
    that is a multiple of the coverage need not give an integer [q].) *)
Theorem calculate_units_binary64 (c : MaterialCalculator.t)
  (m : Material.t) (area : float) (r : CalculationResult.t) :
  MaterialCalculator.calculate c (Instance m) area = Return r ->
  let q := MaterialCalculator.quotient
             (MaterialCalculator._reserve_percent c)
             (Material._unit_coverage m) area in
  let units := CalculationResult._units_needed r in
  is_finite q = true /\
  units = Qceiling (value q) /\
  inject_Z units - 1 < value q /\ value q <= inject_Z units /\
  (forall k : Z, value q == inject_Z k -> units = k) /\
  (forall k : Z, inject_Z k < value q -> value q < inject_Z (k + 1) ->
                 units = (k + 1)%Z).
Proof.
  unfold MaterialCalculator.calculate, MaterialCalculator.quotient.
  destruct (lt area _); [discriminate|].
  destruct (lt _ area); [discriminate|].
  intros H. cbv zeta.
  apply outcome_bind_return in H. destruct H as (fraction & Hf & H).
  apply float_truediv_return in Hf. subst fraction.
  apply outcome_bind_return in H. destruct H as (q & Hq & H).
  apply float_truediv_return in Hq.
  apply outcome_bind_return in H. destruct H as (n & Hn & H).
  apply outcome_bind_return in H. destruct H as (u & _ & H).
  apply outcome_bind_return in H. destruct H as (cost & _ & H).
  apply result_init_units in H. rewrite H. rewrite <- Hq.
  destruct (float_ceil_spec _ Hn) as (Hfin & Hceil & Hlo & Hhi).
  split; [exact Hfin|]. split; [exact Hceil|].
  split; [exact Hlo|]. split; [exact Hhi|]. split.
  - intros k Hk. rewrite Hk in Hlo, Hhi.
    rewrite <- Zle_Qle in Hhi.
    assert (L : inject_Z (n - 1) < inject_Z k).
    { unfold Z.sub. rewrite inject_Z_plus. exact Hlo. }
    rewrite <- Zlt_Qlt in L. lia.
  - intros k Hk1 Hk2.
    assert (L1 : inject_Z k < inject_Z n) by lra.
    assert (L2 : inject_Z (n - 1) < inject_Z (k + 1)).
    { unfold Z.sub. rewrite !inject_Z_plus in *.
      change (inject_Z (Z.opp 1)) with (-1). change (inject_Z 1) with 1 in *.
      lra. }
    rewrite <- Zlt_Qlt in L1, L2. lia.
Qed.

(** The first scenario of the specification: 25 square metres of the
    classic wallpaper take six rolls. *)
Lemma calculate_units_binary64_witness :
  MaterialCalculator.calculate MaterialCalculator.init_default
    (Instance classic_wallpaper) (of_int 25) = Return classic_result /\
  6%Z = Qceiling (value (MaterialCalculator.quotient (of_int 10)
                           (Material._unit_coverage classic_wallpaper)
                           (of_int 25))).
Proof.
  assert (H : MaterialCalculator.calculate MaterialCalculator.init_default
                (Instance classic_wallpaper) (of_int 25)
              = Return classic_result) by (vm_compute; reflexivity).
  split; [exact H|].
  exact (proj1 (proj2 (calculate_units_binary64 _ _ _ H))).
Defined.

End Units.

(* ================================================================= *)
(** ** MaterialCalculator.calculate: the claims *)

(** C3.  A call of [calculate] that raises leaves the calculator, the
    store and the output as they were; in particular the history is
    unchanged. *)
Theorem failed_calculate_keeps_history (Store : Type)
  (material : object) (area : Q) (w w' : MaterialCalculator.world Store)
  (e : exn) :
  MaterialCalculator.calculate material area w = (Raise e, w') ->
  MaterialCalculator._calculations_history (MaterialCalculator.self w')
  = MaterialCalculator._calculations_history (MaterialCalculator.self w) /\
  w' = w.
Proof.
  intros H. apply calculate_raise in H. destruct H as [_ ->]. auto.
Qed.

(** The four kinds of failure, each on a calculator whose history holds
    one result: an area below the minimum, an area above the maximum, a
    string in place of the material, and a result object that rejects the
    reserve. *)
Lemma failed_calculate_keeps_history_witness :
  (MaterialCalculator._calculations_history (MaterialCalculator.self
     (snd (MaterialCalculator.calculate the_wallpaper 0.05 busy_world)))
   = [classic_result]) /\
  (MaterialCalculator._calculations_history (MaterialCalculator.self
     (snd (MaterialCalculator.calculate the_wallpaper 10001 busy_world)))
   = [classic_result]) /\
  (MaterialCalculator._calculations_history (MaterialCalculator.self
     (snd (MaterialCalculator.calculate (NotMaterial (VStr "tile")) 25
             busy_world)))
   = [classic_result]) /\
  (MaterialCalculator._calculations_history (MaterialCalculator.self
     (snd (MaterialCalculator.calculate the_wallpaper 25 busy_world_150)))
   = [classic_result]).
Proof.
  split; [|split; [|split]].
  - exact (proj1 (@failed_calculate_keeps_history rows the_wallpaper 0.05
                    busy_world busy_world (ValueError AreaBelowMin) eq_refl)).
  - exact (proj1 (@failed_calculate_keeps_history rows the_wallpaper 10001
                    busy_world busy_world (ValueError AreaAboveMax) eq_refl)).
  - exact (proj1 (@failed_calculate_keeps_history rows
                    (NotMaterial (VStr "tile")) 25
                    busy_world busy_world (ValueError NotAMaterial) eq_refl)).
  - exact (proj1 (@failed_calculate_keeps_history rows the_wallpaper 25
                    busy_world_150 busy_world_150
                    (ValueError ResultReserveOutOfRange) eq_refl)).
Defined.

(** C4.  With auto-save on and a database manager configured, a
    calculation that succeeds returns its result even when
    [save_calculation] raises: the result is appended to the history, the
    exception is printed as a warning and does not reach the caller. *)
Theorem save_failure_is_swallowed (Store : Type) (db : DatabaseManager Store)
  (w : MaterialCalculator.world Store) (material : object) (area : Q)
  (r : CalculationResult.t) (e : exn) (s : Store) :
  truthy (MaterialCalculator._auto_save (MaterialCalculator.self w)) = true ->
  MaterialCalculator._db_manager (MaterialCalculator.self w) = Some db ->
  MaterialCalculator.compute (MaterialCalculator.self w) material area = Ok r ->
  save_calculation db r "simple" (MaterialCalculator.store w) = (Raise e, s) ->
  exists w',
    MaterialCalculator.calculate material area w = (Ok r, w') /\
    MaterialCalculator._calculations_history (MaterialCalculator.self w')
    = MaterialCalculator._calculations_history (MaterialCalculator.self w)
      ++ [r] /\
    In r (MaterialCalculator._calculations_history (MaterialCalculator.self w'))
    /\ MaterialCalculator.stdout w'
       = MaterialCalculator.stdout w ++ [SaveWarning e].
Proof.
  intros Hauto Hdb Hcompute Hsave.
  exists (MaterialCalculator.commit r w).
  split; [apply calculate_ok; auto|].
  assert (Hh : MaterialCalculator._calculations_history
                 (MaterialCalculator.self (MaterialCalculator.commit r w))
               = MaterialCalculator._calculations_history
                   (MaterialCalculator.self w) ++ [r]).
  { rewrite commit_history, Hauto. reflexivity. }
  split; [exact Hh|]. split.
  - rewrite Hh. apply in_or_app. right. left. reflexivity.
  - unfold MaterialCalculator.commit. rewrite Hauto, Hdb, Hsave. reflexivity.
Qed.

(** The first scenario of the specification on a calculator whose
    database cannot be opened. *)
Lemma save_failure_is_swallowed_witness :
  exists w',
    MaterialCalculator.calculate the_wallpaper 25
      (fresh_world (calculator_with failing_db)) = (Ok classic_result, w') /\
    MaterialCalculator._calculations_history (MaterialCalculator.self w')
    = [] ++ [classic_result] /\
    In classic_result
       (MaterialCalculator._calculations_history (MaterialCalculator.self w'))
    /\ MaterialCalculator.stdout w'
       = [] ++ [SaveWarning (DatabaseError "unable to open database file")].
Proof.
  exact (@save_failure_is_swallowed rows failing_db
           (fresh_world (calculator_with failing_db)) the_wallpaper 25
           classic_result (DatabaseError "unable to open database file") []
           eq_refl eq_refl eq_refl eq_refl).
Defined.



(* ================================================================= *)
(** ** Sorting by key *)

Section SortFacts.
Variable A : Type.
Variable key : A -> Q.

Lemma insert_perm (x : A) (l : list A) :
  Permutation (x :: l) (insert key x l).
Proof.
  induction l as [|h t IH]; simpl; [reflexivity|].
  destruct (lt (key h) (key x)); [|reflexivity].
  rewrite perm_swap. apply perm_skip. exact IH.
Qed.

Lemma sort_perm (l : list A) : Permutation l (sort key l).
Proof.
  induction l as [|x l IH]; simpl; [reflexivity|].
  rewrite <- insert_perm. apply perm_skip. exact IH.
Qed.





End SortFacts.

(* ================================================================= *)
(** ** MaterialCalculator.compare_materials *)

Section Compare.
Variable Store : Type.
Variable area : Q.

(** A result is built for the instance that was passed. *)
Lemma calculate_material (material : object)
  (w w' : MaterialCalculator.world Store) (r : CalculationResult.t) :
  MaterialCalculator.calculate material area w = (Ok r, w') ->
  material = Instance (CalculationResult.material r).
Proof.
  intros H. apply calculate_ok in H. destruct H as [H _].
  destruct material as [m|v].
  - apply compute_ok in H. destruct H as (_ & _ & _ & Hm & _).
    rewrite Hm. reflexivity.
  - unfold MaterialCalculator.compute in H.
    destruct (lt area _); [discriminate|].
    destruct (lt _ area); discriminate.
Qed.

Lemma calculated_in_turn_materials (ms : list object)
  (w w' : MaterialCalculator.world Store) (rs : list CalculationResult.t) :
  MaterialCalculator.calculated_in_turn area w ms rs w' ->
  map (fun r => Instance (CalculationResult.material r)) rs = ms.
Proof.
  induction 1 as [|w w1 w2 m r ms rs Hc _ IH]; [reflexivity|].
  cbn [map]. rewrite IH. f_equal. symmetry.
  eapply calculate_material. exact Hc.
Qed.

(** The loop returns exactly when every call returns, one after the
    other, and then it returns the accumulated results followed by the
    new ones. *)
Lemma calculate_each_ok (ms : list object) :
  forall (acc rs : list CalculationResult.t)
         (w w' : MaterialCalculator.world Store),
    MaterialCalculator.calculate_each ms area acc w = (Ok rs, w') <->
    exists rs0,
      MaterialCalculator.calculated_in_turn area w ms rs0 w' /\
      rs = acc ++ rs0.
Proof.
  induction ms as [|m ms IH]; intros acc rs w w'; cbn [MaterialCalculator.calculate_each].
  - unfold MaterialCalculator.ret. split.
    + intros H. injection H as <- <-. exists []. split; [constructor|].
      now rewrite app_nil_r.
    + intros (rs0 & Hturn & ->). inversion Hturn; subst.
      now rewrite app_nil_r.
  - unfold MaterialCalculator.bind.
    destruct (MaterialCalculator.calculate m area w) as [[r|e] w1] eqn:Hc.
    + rewrite IH. split.
      * intros (rs0 & Hturn & ->). exists (r :: rs0). split.
        -- econstructor; eassumption.
        -- now rewrite <- app_assoc.
      * intros (rs0 & Hturn & ->). inversion Hturn; subst.
        match goal with
        | H : MaterialCalculator.calculate m area w = _ |- _ =>
            rewrite Hc in H; injection H as <- <-
        end.
        eexists. split; [eassumption|]. now rewrite <- app_assoc.
    + split; [discriminate|].
      intros (rs0 & Hturn & _). inversion Hturn; subst. congruence.
Qed.

End Compare.



(* ================================================================= *)
(** ** Materials: what the constructors accept *)







(* ================================================================= *)
(** ** Materials: what every instance satisfies *)







(* ================================================================= *)
(** ** Materials: comparison *)


Lemma material_eq_fields (a b : material_t) :
  __eq__ a (Instance b) = true <->
  name a = name b /\ price_per_unit a == price_per_unit b /\
  unit_coverage a == unit_coverage b.
Proof.
  unfold __eq__. rewrite !andb_true_iff, String.eqb_eq, !Qeq_bool_iff. tauto.
Qed.



(** X6.  Equal materials have equal hashes: whenever [a == b] holds,
    [hash(a) == hash(b)], as sets and dictionary keys need. *)
Theorem material_eq_implies_hash
  (hash_str : string -> Z) (hash_float : Q -> Z) (hash_tuple : list Z -> Z)
  (a b : material_t) :
  __eq__ a (Instance b) = true ->
  __hash__ hash_str hash_float hash_tuple a =
  __hash__ hash_str hash_float hash_tuple b.
Proof.
  intros H. apply material_eq_fields in H. destruct H as (Hn & Hp & Hc).
  unfold __hash__, hash_number.
  rewrite Hn, (Qred_complete _ _ Hp), (Qred_complete _ _ Hc). reflexivity.
Qed.

Lemma material_eq_implies_hash_witness :
  __hash__ sample_hash_str sample_hash_float sample_hash_tuple
    (IsTile ceramic_tile) =
  __hash__ sample_hash_str sample_hash_float sample_hash_tuple
    (IsWallpaper ceramic_wallpaper).
Proof.
  apply (@material_eq_implies_hash sample_hash_str sample_hash_float
           sample_hash_tuple (IsTile ceramic_tile)
           (IsWallpaper ceramic_wallpaper)).
  reflexivity.
Defined.

(* ================================================================= *)
(** ** Material: the order by cost per square metre *)

Section MaterialOrder.
Import Binary64.

Lemma cost_per_sqm_return (m : Material.t) :
  Material.valid m ->
  Material.calculate_cost_per_sqm m
  = Return (div (Material._price_per_unit m) (Material._unit_coverage m)).
Proof.
  intros [_ Hc]. unfold Material.calculate_cost_per_sqm, truediv.
  rewrite (float_lt_zero_nonzero _ Hc). reflexivity.
Qed.

Lemma material_lt_return (a b : Material.t) :
  Material.valid a -> Material.valid b ->
  __lt__ a (Instance b)
  = Return (Some (lt (div (Material._price_per_unit a)
                          (Material._unit_coverage a))
                     (div (Material._price_per_unit b)
                          (Material._unit_coverage b)))).
Proof.
  intros Ha Hb. unfold __lt__.
  rewrite (cost_per_sqm_return Ha), (cost_per_sqm_return Hb). reflexivity.
Qed.

(** X7.  On materials with a positive price and coverage,
    [Material.__lt__] never raises and compares the two floats
    [price_per_unit / unit_coverage] that [calculate_cost_per_sqm]
    returns.  It is a strict order: no material is below itself or below
    an equal one, and it is transitive. *)
Theorem material_lt_strict_order (a b c : Binary64.Material.t) :
  Material.valid a -> Material.valid b -> Material.valid c ->
  (exists cost_a cost_b,
     Material.calculate_cost_per_sqm a = Return cost_a /\
     Material.calculate_cost_per_sqm b = Return cost_b /\
     __lt__ a (Instance b) = Return (Some (lt cost_a cost_b)))
  /\ __lt__ a (Instance a) = Return (Some false)
  /\ (__eq__ a (Instance b) = true ->
      __lt__ a (Instance b) = Return (Some false))
  /\ (__lt__ a (Instance b) = Return (Some true) ->
      __lt__ b (Instance c) = Return (Some true) ->
      __lt__ a (Instance c) = Return (Some true)).
Proof.
  intros Ha Hb Hc. split; [|split; [|split]].
  - eexists. eexists.
    split; [apply cost_per_sqm_return; exact Ha|].
    split; [apply cost_per_sqm_return; exact Hb|].
    apply material_lt_return; assumption.
  - rewrite (material_lt_return Ha Ha), float_lt_irrefl. reflexivity.
  - intros E. unfold __eq__ in E.
    apply andb_prop in E. destruct E as [E Ecov].
    apply andb_prop in E. destruct E as [_ Eprice].
    destruct Ha as [Hpa Hca].
    apply (float_eqb_positive_eq _ _ Hpa) in Eprice.
    apply (float_eqb_positive_eq _ _ Hca) in Ecov.
    rewrite (material_lt_return (conj Hpa Hca) Hb), Eprice, Ecov, float_lt_irrefl.
    reflexivity.
  - rewrite (material_lt_return Ha Hb), (material_lt_return Hb Hc),
      (material_lt_return Ha Hc).
    intros H1 H2. injection H1 as H1. injection H2 as H2.
    rewrite (float_lt_trans _ _ _ H1 H2). reflexivity.
Qed.

(** The budget wallpaper is cheaper per square metre than the classic
    one. *)
Lemma material_lt_strict_order_witness :
  __lt__ budget_wallpaper (Instance classic_wallpaper) = Return (Some true) /\
  __lt__ budget_wallpaper (Instance budget_wallpaper) = Return (Some false).
Proof.
  assert (Hb : Material.valid budget_wallpaper)
    by (split; vm_compute; reflexivity).
  assert (Hc : Material.valid classic_wallpaper)
    by (split; vm_compute; reflexivity).
  destruct (material_lt_strict_order Hb Hc Hc)
    as ((cost_a & cost_b & Ea & Eb & Hlt) & Hirrefl & _).
  split; [|exact Hirrefl].
  rewrite Hlt.
  vm_compute in Ea. injection Ea as <-.
  vm_compute in Eb. injection Eb as <-.
  reflexivity.
Defined.

End MaterialOrder.

(* ================================================================= *)
(** ** MaterialCalculator: the configuration and its setters *)

Lemma calculate_config (Store : Type) (material : object) (area : Q)
  (w : MaterialCalculator.world Store) :
  let c := MaterialCalculator.self w in
  let c' := MaterialCalculator.self
              (snd (MaterialCalculator.calculate material area w)) in
  MaterialCalculator._reserve_percent c' = MaterialCalculator._reserve_percent c
  /\ MaterialCalculator._min_area c' = MaterialCalculator._min_area c
  /\ MaterialCalculator._max_area c' = MaterialCalculator._max_area c
  /\ MaterialCalculator._precision c' = MaterialCalculator._precision c
  /\ MaterialCalculator._currency c' = MaterialCalculator._currency c
  /\ MaterialCalculator._auto_save c' = MaterialCalculator._auto_save c
  /\ MaterialCalculator._db_manager c' = MaterialCalculator._db_manager c.
Proof.
  cbv zeta. rewrite calculate_eq.
  destruct (MaterialCalculator.compute _ _ _) as [r|e]; cbn [snd];
    [|repeat split].
  unfold MaterialCalculator.commit.
  destruct (truthy _); [|repeat split].
  destruct (MaterialCalculator._db_manager _) as [db|] eqn:E.
  - destruct (save_calculation db r _ _) as [[i|e] s]; cbn;
      repeat split; exact E.
  - cbn. repeat split. exact E.
Qed.





(* ================================================================= *)
(** ** MaterialCalculator.calculate: more on what it returns *)



(** X11.  [calculate] never returns a result for an area that is zero or
    negative, whatever the bounds of the calculator are, and the call
    leaves the state as it was: with [min_area = 0] an area of 0 passes
    the range check and is refused by the result object. *)
Theorem calculate_rejects_nonpositive_area (Store : Type)
  (w : MaterialCalculator.world Store) (material : object) (area : Q) :
  area <= 0 ->
  exists e, MaterialCalculator.calculate material area w = (Raise e, w).
Proof.
  intros Harea. rewrite calculate_eq.
  destruct (MaterialCalculator.compute _ _ _) as [r|e] eqn:H; [|eauto].
  exfalso. destruct material as [m|v].
  - apply compute_ok in H.
    destruct H as (_ & _ & _ & _ & _ & _ & _ & _ & Hpos & _). lra.
  - unfold MaterialCalculator.compute in H.
    destruct (lt area _); [discriminate|].
    destruct (lt _ area); discriminate.
Qed.

(** A calculator whose minimum area is 0, asked for 0 square metres. *)
Lemma calculate_rejects_nonpositive_area_witness :
  exists e,
    MaterialCalculator.calculate the_wallpaper 0
      (fresh_world (MaterialCalculator.init 10 0 10000 (VInt 2)
                      (VStr "RUB") (VBool true) None))
    = (Raise e,
       fresh_world (MaterialCalculator.init 10 0 10000 (VInt 2)
                      (VStr "RUB") (VBool true) None)).
Proof.
  apply (@calculate_rejects_nonpositive_area rows
           (fresh_world (MaterialCalculator.init 10 0 10000 (VInt 2)
                           (VStr "RUB") (VBool true) None))
           the_wallpaper 0).
  discriminate.
Defined.

(* ================================================================= *)
(** ** MaterialCalculator.calculate: history, store and output *)

(** X13.  With auto-save off, [calculate] changes nothing: no entry is
    appended to the history, the database manager is not called even when
    one is configured, and nothing is printed.  The value is the one
    computed from the configuration alone. *)
Theorem calculate_without_auto_save (Store : Type)
  (w : MaterialCalculator.world Store) (material : object) (area : Q) :
  truthy (MaterialCalculator._auto_save (MaterialCalculator.self w)) = false ->
  MaterialCalculator.calculate material area w
  = (MaterialCalculator.compute (MaterialCalculator.self w) material area, w).
Proof.
  intros H. rewrite calculate_eq.
  destruct (MaterialCalculator.compute _ _ _) as [r|e]; [|reflexivity].
  unfold MaterialCalculator.commit. rewrite H. reflexivity.
Qed.

(** The first scenario with auto-save off: the result comes back, the
    history stays empty and the failing database is never called. *)
Lemma calculate_without_auto_save_witness :
  MaterialCalculator.calculate the_wallpaper 25 (fresh_world quiet_calculator)
  = (Ok classic_result, fresh_world quiet_calculator).
Proof.
  exact (@calculate_without_auto_save rows (fresh_world quiet_calculator)
           the_wallpaper 25 eq_refl).
Defined.

(** X14.  When [calculate] returns with auto-save on, the external store
    changes only through one call of [save_calculation] on the returned
    result with the calculation type "simple", and a line is printed only
    when that call raises; without a database manager the store and the
    output stay as they were. *)
Theorem calculate_store_effect (Store : Type)
  (w w' : MaterialCalculator.world Store) (material : object) (area : Q)
  (r : CalculationResult.t) :
  truthy (MaterialCalculator._auto_save (MaterialCalculator.self w)) = true ->
  MaterialCalculator.calculate material area w = (Ok r, w') ->
  match MaterialCalculator._db_manager (MaterialCalculator.self w) with
  | None =>
      MaterialCalculator.store w' = MaterialCalculator.store w /\
      MaterialCalculator.stdout w' = MaterialCalculator.stdout w
  | Some db =>
      MaterialCalculator.store w'
      = snd (save_calculation db r "simple" (MaterialCalculator.store w)) /\
      MaterialCalculator.stdout w'
      = match fst (save_calculation db r "simple"
                     (MaterialCalculator.store w)) with
        | Ok _ => MaterialCalculator.stdout w
        | Raise e => MaterialCalculator.stdout w ++ [SaveWarning e]
        end
  end.
Proof.
  intros Hauto H. apply calculate_ok in H. destruct H as [_ ->].
  unfold MaterialCalculator.commit. rewrite Hauto.
  destruct (MaterialCalculator._db_manager _) as [db|]; [|split; reflexivity].
  destruct (save_calculation db r _ _) as [[i|e] s]; split; reflexivity.
Qed.

(** A save that works: the result is the one row of the store and
    nothing is printed. *)
Lemma calculate_store_effect_witness :
  MaterialCalculator.store
    (snd (MaterialCalculator.calculate the_wallpaper 25
            (fresh_world (calculator_with working_db))))
  = snd (save_calculation working_db classic_result "simple" []) /\
  MaterialCalculator.stdout
    (snd (MaterialCalculator.calculate the_wallpaper 25
            (fresh_world (calculator_with working_db))))
  = match fst (save_calculation working_db classic_result "simple" []) with
    | Ok _ => []
    | Raise e => [] ++ [SaveWarning e]
    end.
Proof.
  exact (@calculate_store_effect rows
           (fresh_world (calculator_with working_db))
           (snd (MaterialCalculator.calculate the_wallpaper 25
                   (fresh_world (calculator_with working_db))))
           the_wallpaper 25 classic_result eq_refl eq_refl).
Defined.

Lemma result_eq_refl (r : CalculationResult.t) : CalculationResult.eq r r = true.
Proof.
  unfold CalculationResult.eq.
  rewrite Z.eqb_refl, andb_true_r. apply andb_true_iff. split.
  - apply material_eq_fields. split; [|split]; reflexivity.
  - apply Qeq_bool_iff. reflexivity.
Qed.

(** X15.  When [calculate] returns with auto-save on, the result is the
    new last entry of the history: the length grows by one, the
    calculator becomes truthy, [result in calculator] holds, and the sum
    of the recorded costs grows by the cost of the result. *)
Theorem calculate_records_result (Store : Type)
  (w w' : MaterialCalculator.world Store) (material : object) (area : Q)
  (r : CalculationResult.t) :
  truthy (MaterialCalculator._auto_save (MaterialCalculator.self w)) = true ->
  MaterialCalculator.calculate material area w = (Ok r, w') ->
  MaterialCalculator.get_history (MaterialCalculator.self w')
  = MaterialCalculator.get_history (MaterialCalculator.self w) ++ [r] /\
  MaterialCalculator.__len__ (MaterialCalculator.self w')
  = S (MaterialCalculator.__len__ (MaterialCalculator.self w)) /\
  MaterialCalculator.__bool__ (MaterialCalculator.self w') = true /\
  MaterialCalculator.__contains__ (MaterialCalculator.self w') r = true /\
  MaterialCalculator.total_cost_sum (MaterialCalculator.self w')
  = MaterialCalculator.total_cost_sum (MaterialCalculator.self w)
    + CalculationResult._total_cost r.
Proof.
  intros Hauto H. apply calculate_ok in H. destruct H as [_ ->].
  assert (Hh : MaterialCalculator._calculations_history
                 (MaterialCalculator.self (MaterialCalculator.commit r w))
               = MaterialCalculator._calculations_history
                   (MaterialCalculator.self w) ++ [r]).
  { rewrite commit_history, Hauto. reflexivity. }
  unfold MaterialCalculator.get_history, MaterialCalculator.__len__,
    MaterialCalculator.__bool__, MaterialCalculator.__contains__,
    MaterialCalculator.total_cost_sum.
  rewrite Hh. split; [reflexivity|].
  rewrite length_app. cbn [length]. rewrite Nat.add_1_r.
  split; [reflexivity|]. split; [reflexivity|]. split.
  - rewrite existsb_app. cbn [existsb]. rewrite result_eq_refl.
    rewrite orb_true_r. reflexivity.
  - rewrite fold_left_app. reflexivity.
Qed.

Lemma calculate_records_result_witness :
  let w' := snd (MaterialCalculator.calculate the_wallpaper 50 busy_world) in
  MaterialCalculator.get_history (MaterialCalculator.self w')
  = [classic_result] ++ [classic_result_50] /\
  MaterialCalculator.__len__ (MaterialCalculator.self w') = 2%nat /\
  MaterialCalculator.__bool__ (MaterialCalculator.self w') = true /\
  MaterialCalculator.__contains__ (MaterialCalculator.self w')
    classic_result_50 = true /\
  MaterialCalculator.total_cost_sum (MaterialCalculator.self w')
  = MaterialCalculator.total_cost_sum (MaterialCalculator.self busy_world)
    + CalculationResult._total_cost classic_result_50.
Proof.
  exact (@calculate_records_result rows busy_world
           (snd (MaterialCalculator.calculate the_wallpaper 50 busy_world))
           the_wallpaper 50 classic_result_50 eq_refl eq_refl).
Defined.





(* ================================================================= *)
(** ** MaterialCalculator.compare_materials: the history *)

Section CompareHistory.
Variable Store : Type.
Variable area : Q.

Lemma calculate_auto_save (material : object)
  (w w' : MaterialCalculator.world Store) (out : res CalculationResult.t) :
  MaterialCalculator.calculate material area w = (out, w') ->
  MaterialCalculator._auto_save (MaterialCalculator.self w')
  = MaterialCalculator._auto_save (MaterialCalculator.self w).
Proof.
  intros H.
  pose proof (calculate_config material area w) as C. cbv zeta in C.
  rewrite H in C. cbn [snd] in C. destruct C as (_ & _ & _ & _ & _ & C & _).
  exact C.
Qed.

(** One call after the other extends the history by the results, in the
    order of the calls. *)
Lemma calculated_in_turn_history (ms : list object)
  (w w' : MaterialCalculator.world Store) (rs : list CalculationResult.t) :
  MaterialCalculator.calculated_in_turn area w ms rs w' ->
  MaterialCalculator._auto_save (MaterialCalculator.self w')
  = MaterialCalculator._auto_save (MaterialCalculator.self w) /\
  (truthy (MaterialCalculator._auto_save (MaterialCalculator.self w)) = true ->
   MaterialCalculator._calculations_history (MaterialCalculator.self w')
   = MaterialCalculator._calculations_history (MaterialCalculator.self w)
     ++ rs).
Proof.
  induction 1 as [w|w w1 w2 m r ms rs Hc _ IH].
  - split; [reflexivity|]. intros _. now rewrite app_nil_r.
  - destruct IH as [IHa IHh].
    pose proof (calculate_auto_save _ _ Hc) as Ha.
    split; [congruence|]. intros Hauto.
    rewrite IHh by (rewrite Ha; exact Hauto).
    apply calculate_ok in Hc. destruct Hc as [_ ->].
    rewrite commit_history, Hauto. now rewrite <- app_assoc.
Qed.

(** When the loop raises, some material of the list is the first whose
    call raises; the calls before it returned, and the state is the one
    they left. *)
Lemma calculate_each_raise (ms : list object) :
  forall (acc : list CalculationResult.t)
         (w w' : MaterialCalculator.world Store) (e : exn),
    MaterialCalculator.calculate_each ms area acc w = (Raise e, w') ->
    exists ms1 m ms2 rs1,
      ms = ms1 ++ m :: ms2 /\
      MaterialCalculator.calculated_in_turn area w ms1 rs1 w' /\
      MaterialCalculator.calculate m area w' = (Raise e, w').
Proof.
  induction ms as [|m ms IH]; intros acc w w' e H;
    cbn [MaterialCalculator.calculate_each] in H.
  - discriminate.
  - unfold MaterialCalculator.bind in H.
    destruct (MaterialCalculator.calculate m area w) as [[r|e0] w1] eqn:Hc.
    + apply IH in H. destruct H as (ms1 & m' & ms2 & rs1 & -> & Hturn & Hfail).
      exists (m :: ms1), m', ms2, (r :: rs1).
      split; [reflexivity|]. split; [|exact Hfail].
      econstructor; eassumption.
    + injection H as <- <-.
      pose proof Hc as Hc'. apply calculate_raise in Hc'.
      destruct Hc' as [_ ->].
      exists [], m, ms, []. split; [reflexivity|].
      split; [constructor|exact Hc].
Qed.

End CompareHistory.

(** X17.  [compare_materials] is not all-or-nothing.  When it raises on
    a non-empty list, the materials before the first failing one were
    calculated, and with auto-save on their results stay in the history;
    nothing is recorded for the failing material or for those after
    it. *)
Theorem compare_materials_failure (Store : Type) (area : Q)
  (w w' : MaterialCalculator.world Store) (ms : list object) (e : exn) :
  ms <> [] ->
  MaterialCalculator.compare_materials ms area w = (Raise e, w') ->
  exists ms1 m ms2 rs1,
    ms = ms1 ++ m :: ms2 /\
    MaterialCalculator.calculated_in_turn area w ms1 rs1 w' /\
    MaterialCalculator.calculate m area w' = (Raise e, w') /\
    (truthy (MaterialCalculator._auto_save (MaterialCalculator.self w)) = true
     -> MaterialCalculator.get_history (MaterialCalculator.self w')
        = MaterialCalculator.get_history (MaterialCalculator.self w) ++ rs1).
Proof.
  intros Hne H. destruct ms as [|m0 ms]; [congruence|].
  unfold MaterialCalculator.compare_materials, MaterialCalculator.bind in H.
  destruct (MaterialCalculator.calculate_each (m0 :: ms) area [] w)
    as [[results|e0] w1] eqn:Heach; [discriminate|].
  injection H as <- <-.
  apply calculate_each_raise in Heach.
  destruct Heach as (ms1 & m & ms2 & rs1 & Hms & Hturn & Hfail).
  exists ms1, m, ms2, rs1.
  split; [exact Hms|]. split; [exact Hturn|]. split; [exact Hfail|].
  apply (calculated_in_turn_history Hturn).
Qed.

(** A wallpaper followed by a string: the call raises and the result for
    the wallpaper is in the history. *)
Lemma compare_materials_failure_witness :
  exists ms1 m ms2 rs1,
    wallpaper_then_text = ms1 ++ m :: ms2 /\
    MaterialCalculator.calculated_in_turn 25
      (fresh_world (MaterialCalculator.init_default rows)) ms1 rs1
      (MaterialCalculator.commit classic_result
         (fresh_world (MaterialCalculator.init_default rows))) /\
    MaterialCalculator.calculate m 25
      (MaterialCalculator.commit classic_result
         (fresh_world (MaterialCalculator.init_default rows)))
    = (Raise (ValueError NotAMaterial),
       MaterialCalculator.commit classic_result
         (fresh_world (MaterialCalculator.init_default rows))) /\
    (truthy (MaterialCalculator._auto_save
               (MaterialCalculator.self
                  (fresh_world (MaterialCalculator.init_default rows))))
     = true ->
     MaterialCalculator.get_history
       (MaterialCalculator.self
          (MaterialCalculator.commit classic_result
             (fresh_world (MaterialCalculator.init_default rows))))
     = MaterialCalculator.get_history
         (MaterialCalculator.self
            (fresh_world (MaterialCalculator.init_default rows))) ++ rs1).
Proof.
  apply (@compare_materials_failure rows 25
           (fresh_world (MaterialCalculator.init_default rows))
           (MaterialCalculator.commit classic_result
              (fresh_world (MaterialCalculator.init_default rows)))
           wallpaper_then_text (ValueError NotAMaterial)).
  - discriminate.
  - reflexivity.
Defined.

(** X18.  When [compare_materials] returns with auto-save on, the
    history has grown by one result per material in the order of the
    input list, not in the order of cost; the list returned is a
    rearrangement of those entries, as long as the input. *)
Theorem compare_materials_history (Store : Type) (area : Q)
  (w w' : MaterialCalculator.world Store) (ms : list object)
  (rs : list CalculationResult.t) :
  truthy (MaterialCalculator._auto_save (MaterialCalculator.self w)) = true ->
  MaterialCalculator.compare_materials ms area w = (Ok rs, w') ->
  exists rs0,
    MaterialCalculator.get_history (MaterialCalculator.self w')
    = MaterialCalculator.get_history (MaterialCalculator.self w) ++ rs0 /\
    map (fun r => Instance (CalculationResult.material r)) rs0 = ms /\
    Permutation rs0 rs /\
    length rs = length ms.
Proof.
  intros Hauto H. destruct ms as [|m0 ms]; [discriminate|].
  unfold MaterialCalculator.compare_materials, MaterialCalculator.bind in H.
  destruct (MaterialCalculator.calculate_each (m0 :: ms) area [] w)
    as [[results|e0] w1] eqn:Heach; [|discriminate].
  unfold MaterialCalculator.ret in H. injection H as <- <-.
  apply calculate_each_ok in Heach. destruct Heach as (rs0 & Hturn & ->).
  cbn [app]. exists rs0.
  pose proof (calculated_in_turn_materials Hturn) as Hm.
  split; [apply (calculated_in_turn_history Hturn); exact Hauto|].
  split; [exact Hm|]. split; [apply sort_perm|].
  rewrite <- (Permutation_length (sort_perm CalculationResult._total_cost rs0)).
  rewrite <- Hm. now rewrite length_map.
Qed.

(** The three wallpapers: returned cheapest first, recorded in the order
    given. *)
Lemma compare_materials_history_witness :
  exists rs0,
    MaterialCalculator.get_history
      (MaterialCalculator.self
         (snd (MaterialCalculator.compare_materials three_wallpapers 25
                 (fresh_world (MaterialCalculator.init_default rows)))))
    = [] ++ rs0 /\
    map (fun r => Instance (CalculationResult.material r)) rs0
    = three_wallpapers /\
    Permutation rs0 [budget_result; classic_result; retro_result] /\
    length [budget_result; classic_result; retro_result]
    = length three_wallpapers.
Proof.
  exact (@compare_materials_history rows 25
           (fresh_world (MaterialCalculator.init_default rows))
           (snd (MaterialCalculator.compare_materials three_wallpapers 25
                   (fresh_world (MaterialCalculator.init_default rows))))
           three_wallpapers [budget_result; classic_result; retro_result]
           eq_refl eq_refl).
Defined.

(* ================================================================= *)
(** ** RoomCalculator *)

(** X19.  [calculate_floor_area] raises when the length or the width is
    zero or negative; otherwise it returns [length * width], which is
    positive. *)
Theorem calculate_floor_area_spec (length width : Q) :
  (length <= 0 \/ width <= 0 ->
   RoomCalculator.calculate_floor_area length width
   = Raise (ValueError RoomSizeNotPositive)) /\
  (0 < length -> 0 < width ->
   RoomCalculator.calculate_floor_area length width = Ok (length * width) /\
   0 < length * width).
Proof.
  unfold RoomCalculator.calculate_floor_area. split.
  - intros H. destruct (le length 0) eqn:El; [reflexivity|].
    destruct (le width 0) eqn:Ew; [reflexivity|].
    order_facts. exfalso. destruct H; lra.
  - intros Hl Hw. apply le_false in Hl. apply le_false in Hw.
    rewrite Hl, Hw. split; [reflexivity|].
    apply le_false in Hl. apply le_false in Hw.
    now apply Qmult_lt_0_compat.
Qed.

Lemma calculate_floor_area_spec_witness :
  RoomCalculator.calculate_floor_area 4 3 = Ok (4 * 3) /\ 0 < 4 * 3.
Proof.
  apply (calculate_floor_area_spec 4 3); reflexivity.
Defined.

(** X20.  For the surface type "floor" with a positive length and width,
    [calculate_materials_for_room] is [calculate] on [length * width]:
    the height and the areas of doors and windows play no part. *)
Theorem room_floor_is_calculate (Store : Type)
  (w : MaterialCalculator.world Store) (material : object)
  (length width : Q) (height : option Q) (door_area window_area : Q) :
  0 < length -> 0 < width ->
  RoomCalculator.calculate_materials_for_room material length width height
    door_area window_area "floor" w
  = MaterialCalculator.calculate material (length * width) w.
Proof.
  intros Hl Hw.
  unfold RoomCalculator.calculate_materials_for_room, MaterialCalculator.bind,
    MaterialCalculator.lift.
  cbn [String.eqb Ascii.eqb Bool.eqb andb].
  destruct (calculate_floor_area_spec length width) as [_ H].
  destruct (H Hl Hw) as [-> _]. reflexivity.
Qed.

(** A 4 m by 3 m floor is 12 square metres, with or without openings. *)
Lemma room_floor_is_calculate_witness :
  RoomCalculator.calculate_materials_for_room the_wallpaper 4 3 (Some 2.5) 2
    1.5 "floor" (fresh_world (MaterialCalculator.init_default rows))
  = MaterialCalculator.calculate the_wallpaper (4 * 3)
      (fresh_world (MaterialCalculator.init_default rows)).
Proof.
  apply (@room_floor_is_calculate rows
           (fresh_world (MaterialCalculator.init_default rows)) the_wallpaper
           4 3 (Some 2.5) 2 1.5); reflexivity.
Defined.



Lemma room_call_cases (Store : Type) (w w' : MaterialCalculator.world Store)
  (material : object) (length width : Q) (height : option Q)
  (door_area window_area : Q) (surface_type : string)
  (out : res CalculationResult.t) :
  RoomCalculator.calculate_materials_for_room material length width height
    door_area window_area surface_type w = (out, w') ->
  (exists area, MaterialCalculator.calculate material area w = (out, w')) \/
  (w' = w /\ exists e, out = Raise e).
Proof.
  unfold RoomCalculator.calculate_materials_for_room, MaterialCalculator.bind,
    MaterialCalculator.lift.
  cbv beta.
  match goal with
  | |- match ?c with Ok _ => _ | Raise _ => _ end = _ -> _ =>
      destruct c as [area|e]
  end.
  - intros H. left. exists area. exact H.
  - intros H. injection H as <- <-. right. split; [reflexivity|eauto].
Qed.

(** X22.  A call of [calculate_materials_for_room] that raises leaves the
    wrapped calculator, the store and the output as they were.  A
    surface type other than "floor" and "wall" raises, and so does "wall"
    without a height, whatever the other arguments are. *)
Theorem room_failure_commits_nothing (Store : Type)
  (w : MaterialCalculator.world Store) (material : object)
  (length width : Q) (height : option Q) (door_area window_area : Q)
  (surface_type : string) :
  (forall e w',
     RoomCalculator.calculate_materials_for_room material length width height
       door_area window_area surface_type w = (Raise e, w') -> w' = w) /\
  (surface_type <> "floor"%string -> surface_type <> "wall"%string ->
   RoomCalculator.calculate_materials_for_room material length width height
     door_area window_area surface_type w
   = (Raise (ValueError SurfaceTypeInvalid), w)) /\
  (surface_type = "wall"%string -> height = None ->
   RoomCalculator.calculate_materials_for_room material length width height
     door_area window_area surface_type w
   = (Raise (ValueError HeightMissing), w)).
Proof.
  split; [|split].
  - intros e w' H. apply room_call_cases in H.
    destruct H as [[area H]|[H _]]; [|exact H].
    apply calculate_raise in H. destruct H as [_ H]. exact H.
  - intros Hf Hw. apply String.eqb_neq in Hf, Hw.
    unfold RoomCalculator.calculate_materials_for_room,
      MaterialCalculator.bind, MaterialCalculator.lift.
    rewrite Hf, Hw. reflexivity.
  - intros -> ->. reflexivity.
Qed.

Lemma room_failure_commits_nothing_witness :
  RoomCalculator.calculate_materials_for_room the_wallpaper 4 3 (Some 2.5) 0 0
    "ceiling" busy_world
  = (Raise (ValueError SurfaceTypeInvalid), busy_world) /\
  RoomCalculator.calculate_materials_for_room the_wallpaper 4 3 None 0 0
    "wall" busy_world
  = (Raise (ValueError HeightMissing), busy_world).
Proof.
  split.
  - apply (@room_failure_commits_nothing rows busy_world the_wallpaper 4 3
             (Some 2.5) 0 0 "ceiling"); discriminate.
  - apply (@room_failure_commits_nothing rows busy_world the_wallpaper 4 3
             None 0 0 "wall"); reflexivity.
Defined.

Lemma made_no_database (Store : Type) (r : RoomCalculator.t Store) :
  RoomCalculator.made r ->
  MaterialCalculator._db_manager (RoomCalculator._material_calculator r) = None
  /\ MaterialCalculator._auto_save (RoomCalculator._material_calculator r)
     = VBool true.
Proof.
  induction 1 as [|r r' value _ IH H
                 |r material length width height door window surface s out
                    _ IH].
  - split; reflexivity.
  - unfold RoomCalculator.set_reserve_percent,
      MaterialCalculator.set_reserve_percent in H.
    destruct (lt value 0 || lt 100 value); [discriminate|].
    cbn [res_bind] in H. injection H as <-. exact IH.
  - cbn [RoomCalculator._material_calculator].
    destruct (RoomCalculator.calculate_materials_for_room material length
                width height door window surface
                (RoomCalculator.world_of r s out)) as [o w'] eqn:E.
    cbn [snd]. apply room_call_cases in E.
    destruct E as [[area E]|[-> _]]; [|exact IH].
    pose proof (calculate_config material area
                  (RoomCalculator.world_of r s out)) as C.
    cbv zeta in C. rewrite E in C. cbn [snd] in C.
    destruct C as (_ & _ & _ & _ & _ & Ca & Cd).
    rewrite Ca, Cd. exact IH.
Qed.

(** X23.  A room calculator never reaches the database: its wrapped
    calculator is built without a database manager and none can be set,
    so no call of [calculate_materials_for_room] changes the external
    store or prints; a call that returns appends its result to the
    history of the wrapped calculator. *)
Theorem room_never_persists (Store : Type) (r : RoomCalculator.t Store)
  (material : object) (length width : Q) (height : option Q)
  (door_area window_area : Q) (surface_type : string)
  (s : Store) (out : list line) :
  RoomCalculator.made r ->
  let call := RoomCalculator.calculate_materials_for_room material length
                width height door_area window_area surface_type
                (RoomCalculator.world_of r s out) in
  MaterialCalculator.store (snd call) = s /\
  MaterialCalculator.stdout (snd call) = out /\
  (forall result, fst call = Ok result ->
     MaterialCalculator.get_history (MaterialCalculator.self (snd call))
     = MaterialCalculator.get_history (RoomCalculator._material_calculator r)
       ++ [result]).
Proof.
  intros Hmade. cbv zeta.
  destruct (made_no_database Hmade) as [Hdb Hauto].
  destruct (RoomCalculator.calculate_materials_for_room material length width
              height door_area window_area surface_type
              (RoomCalculator.world_of r s out)) as [o w'] eqn:E.
  cbn [fst snd]. apply room_call_cases in E.
  destruct E as [[area E]|[-> [e ->]]].
  - rewrite calculate_eq in E.
    destruct (MaterialCalculator.compute _ _ _) as [res|e];
      injection E as <- <-.
    + unfold MaterialCalculator.commit, MaterialCalculator.get_history.
      cbn [RoomCalculator.world_of MaterialCalculator.self].
      rewrite Hauto, Hdb. cbn.
      split; [reflexivity|]. split; [reflexivity|].
      intros result H. injection H as <-. reflexivity.
    + split; [reflexivity|]. split; [reflexivity|]. discriminate.
  - split; [reflexivity|]. split; [reflexivity|]. discriminate.
Qed.

Lemma room_never_persists_witness :
  let call := RoomCalculator.calculate_materials_for_room the_wallpaper 5 5
                None 0 0 "floor"
                (RoomCalculator.world_of (RoomCalculator.init rows)
                   [classic_result] []) in
  MaterialCalculator.store (snd call) = [classic_result] /\
  MaterialCalculator.stdout (snd call) = [] /\
  (forall result, fst call = Ok result ->
     MaterialCalculator.get_history (MaterialCalculator.self (snd call))
     = MaterialCalculator.get_history
         (RoomCalculator._material_calculator (RoomCalculator.init rows))
       ++ [result]).
Proof.
  apply (@room_never_persists rows (RoomCalculator.init rows) the_wallpaper
           5 5 None 0 0 "floor" [classic_result] []).
  apply RoomCalculator.made_init.
Defined.

(* ================================================================= *)
(** ** MaterialCalculator: equality, and what the precision changes *)





